(** * Nature Remo air conditioner entity (climate.py)

    A shallow embedding of the [NatureRemoAC] entity of the Home
    Assistant integration for Nature Remo: the two mode translation
    tables, the ingestion of a settings snapshot ([_update]), the four
    command encoders ([set_temperature], [set_hvac_mode], [set_fan_mode],
    [async_set_swing_mode]) and the per-mode capability lookups.

    Python objects are modelled as follows.
    - dictionaries are [gmap]s keyed by strings;
    - the entity is a record of its private attributes, threaded through
      a state-and-exception monad whose state survives a raised
      exception, as attribute assignments do in Python;
    - the injected API client is a record of two functions; every
      [post] made through it is appended to a log of calls;
    - floats are IEEE binary64 values in the [spec_float] form of the
      standard library, integers are [Z];
    - a string stands for the [str] whose code points are its
      characters, one character for one code point from 0 to 255. *)

From Stdlib Require Import ZArith Ascii String List Bool Lia.
From Stdlib Require Import Floats.SpecFloat.
From stdpp Require Import base option list strings gmap fin_maps pretty sorting.

Local Open Scope string_scope.
Local Open Scope Z_scope.

(** ** Python values and builtins *)

Module Py.

(** The values that travel through the entity: JSON scalars. [PyStr s]
    is the [str] whose code points are the characters of [s]. *)
Inductive pyval : Type :=
| PyNone
| PyInt (z : Z)
| PyFloat (f : spec_float)
| PyStr (s : string).

Inductive exn : Type :=
| KeyError (key : pyval)
| ValueError
| TypeError
| OverflowError
| ApiError (reason : string).

#[global] Instance spec_float_eq_dec : EqDecision spec_float.
Proof. solve_decision. Defined.
#[global] Instance pyval_eq_dec : EqDecision pyval.
Proof. solve_decision. Defined.
#[global] Instance exn_eq_dec : EqDecision exn.
Proof. solve_decision. Defined.

(** Truth value of an object, as tested by [filter(None, ...)] and [or]. *)
Definition truthy (v : pyval) : bool :=
  match v with
  | PyNone => false
  | PyInt z => negb (z =? 0)
  | PyFloat (S754_zero _) => false
  | PyFloat _ => true
  | PyStr s => negb (String.eqb s "")
  end.

(** *** Reading numbers *)

(** The blanks that [int] and [float] skip around a number: the space,
    the five characters from tab to carriage return, and, of the code
    points above 127, the next-line character and the no-break space.
    The separators 28 to 31 are not among them. *)
Definition is_space (c : ascii) : bool :=
  let n := N_of_ascii c in
  ((n =? 32) || ((9 <=? n) && (n <=? 13)) || (n =? 133) || (n =? 160))%N.

Fixpoint lstrip (cs : list ascii) : list ascii :=
  match cs with
  | c :: cs' => if is_space c then lstrip cs' else cs
  | [] => []
  end.

Definition strip (cs : list ascii) : list ascii :=
  rev (lstrip (rev (lstrip cs))).

Definition digit_of (c : ascii) : option Z :=
  let n := Z.of_N (N_of_ascii c) in
  if (48 <=? n) && (n <=? 57) then Some (n - 48) else None.

(** An optional sign: [true] stands for a leading minus. *)
Definition take_sign (cs : list ascii) : bool * list ascii :=
  match cs with
  | "-"%char :: cs' => (true, cs')
  | "+"%char :: cs' => (false, cs')
  | _ => (false, cs)
  end.

(** A run of decimal digits read so far: its value and its length. *)
Record digits : Type := Digits { dvalue : Z; dcount : Z }.

Definition push_digit (acc : digits) (d : Z) : digits :=
  Digits (10 * dvalue acc + d) (dcount acc + 1).

(** The tail of [digit (["_"] digit)*]: a single underscore is accepted
    only between two digits. Returns what was read and what is left. *)
Fixpoint digitpart_tail (cs : list ascii) (acc : digits)
  : digits * list ascii :=
  match cs with
  | [] => (acc, [])
  | c :: cs' =>
      match digit_of c with
      | Some d => digitpart_tail cs' (push_digit acc d)
      | None =>
          if Ascii.eqb c "_" then
            match cs' with
            | c2 :: cs'' =>
                match digit_of c2 with
                | Some d2 => digitpart_tail cs'' (push_digit acc d2)
                | None => (acc, cs)
                end
            | [] => (acc, cs)
            end
          else (acc, cs)
      end
  end.

Definition digitpart_from (acc : digits) (cs : list ascii)
  : option (digits * list ascii) :=
  match cs with
  | c :: cs' =>
      match digit_of c with
      | Some d => Some (digitpart_tail cs' (push_digit acc d))
      | None => None
      end
  | [] => None
  end.

Definition digitpart := digitpart_from (Digits 0 0).

(** The interpreter's limit on the digits of an integer that is read
    from or written to a string ([sys.get_int_max_str_digits()]). *)
Definition max_str_digits : Z := 4300.

(** [int(s)] for a string in base ten. More digits than the limit are
    refused; the sign, the blanks and the underscores do not count. *)
Definition int_of_string (s : string) : option Z :=
  let '(neg, cs) := take_sign (strip (list_ascii_of_string s)) in
  match digitpart cs with
  | Some (d, []) =>
      if max_str_digits <? dcount d then None
      else Some (if neg then - dvalue d else dvalue d)
  | _ => None
  end.

(** *** Binary64 *)

Definition prec : Z := 53.
Definition emax : Z := 1024.

(** The binary64 nearest to [n / d] (ties to even), for [0 < n] and
    [0 < d]: the quotient is taken with at least 64 significant bits
    and the remainder decides the rounding direction. *)
Definition round_ratio (neg : bool) (n d : Z) : spec_float :=
  let k := 64 + Z.log2 d - Z.log2 n in
  let n' := if 0 <=? k then n * 2 ^ k else n in
  let d' := if 0 <=? k then d else d * 2 ^ (- k) in
  let q := n' / d' in
  let r := n' mod d' in
  let loc := if r =? 0 then loc_Exact else loc_Inexact (2 * r ?= d') in
  binary_round_aux prec emax neg q (- k) loc.

(** The binary64 nearest to [m * 10 ^ e10], where [m] was written with
    [ndigits] digits. Exponents far outside the binary64 range are
    settled without computing the power of ten. *)
Definition round_decimal (neg : bool) (m ndigits e10 : Z) : spec_float :=
  if m =? 0 then S754_zero neg
  else if 400 <? e10 then S754_infinity neg
  else if e10 <? - (400 + ndigits) then S754_zero neg
  else if 0 <=? e10 then round_ratio neg (m * 10 ^ e10) 1
  else round_ratio neg m (10 ^ (- e10)).

Definition lower (c : ascii) : ascii :=
  let n := N_of_ascii c in
  if ((65 <=? n) && (n <=? 90))%N then ascii_of_N (n + 32) else c.

(** [digitpart ["." [digitpart]] | "." digitpart]: mantissa digits and
    the number of them that follow the point. *)
Definition mantissa (cs : list ascii) : option (digits * Z * list ascii) :=
  match cs with
  | "."%char :: cs' =>
      match digitpart cs' with
      | Some (d, rest) => Some (d, dcount d, rest)
      | None => None
      end
  | _ =>
      match digitpart cs with
      | Some (d, "."%char :: rest) =>
          match digitpart_from d rest with
          | Some (d', rest') => Some (d', dcount d' - dcount d, rest')
          | None => Some (d, 0, rest)
          end
      | Some (d, rest) => Some (d, 0, rest)
      | None => None
      end
  end.

(** [("e" | "E") [sign] digitpart], or nothing. *)
Definition exponent (cs : list ascii) : option (Z * list ascii) :=
  match cs with
  | c :: cs' =>
      if Ascii.eqb (lower c) "e" then
        let '(neg, cs'') := take_sign cs' in
        match digitpart cs'' with
        | Some (d, rest) => Some (if neg then - dvalue d else dvalue d, rest)
        | None => None
        end
      else Some (0, cs)
  | [] => Some (0, [])
  end.

(** [float(s)] for a string. *)
Definition float_of_string (s : string) : option spec_float :=
  let '(neg, cs) := take_sign (strip (list_ascii_of_string s)) in
  let word := string_of_list_ascii (map lower cs) in
  if String.eqb word "inf" || String.eqb word "infinity"
  then Some (S754_infinity neg)
  else if String.eqb word "nan" then Some S754_nan
  else
    match mantissa cs with
    | Some (d, nfrac, rest) =>
        match exponent rest with
        | Some (e, []) =>
            Some (round_decimal neg (dvalue d) (dcount d) (e - nfrac))
        | _ => None
        end
    | None => None
    end.

(** [float(z)] for an integer. *)
Definition float_of_Z (z : Z) : exn + spec_float :=
  match binary_normalize prec emax z 0 false with
  | S754_infinity _ => inl OverflowError
  | f => inr f
  end.

(** [int(f)] for a float: the integer part, rounding toward zero. *)
Definition int_of_float (f : spec_float) : exn + Z :=
  match f with
  | S754_zero _ => inr 0
  | S754_infinity _ => inl OverflowError
  | S754_nan => inl ValueError
  | S754_finite s m e => inr (cond_Zopp s (Z.shiftl (Z.pos m) e))
  end.

(** The builtin [int]. *)
Definition int (v : pyval) : exn + Z :=
  match v with
  | PyNone => inl TypeError
  | PyInt z => inr z
  | PyFloat f => int_of_float f
  | PyStr s =>
      match int_of_string s with
      | Some z => inr z
      | None => inl ValueError
      end
  end.

(** The builtin [float]. *)
Definition float (v : pyval) : exn + spec_float :=
  match v with
  | PyNone => inl TypeError
  | PyInt z => float_of_Z z
  | PyFloat f => inr f
  | PyStr s =>
      match float_of_string s with
      | Some f => inr f
      | None => inl ValueError
      end
  end.

(** The least integer that has more digits than the limit. *)
Definition str_limit : Z := 10 ^ max_str_digits.

(** [f"{z}"] and [str(z)] for an integer: [ValueError] when [z] has
    more digits than the limit, that is from [str_limit] on. An integer
    below [2 ^ 14284] is below that bound, which spares the power of
    ten where it is not needed. *)
Definition str_of_Z (z : Z) : exn + string :=
  if Z.log2 (Z.abs z) <? 14284 then inr (pretty z)
  else if str_limit <=? Z.abs z then inl ValueError
  else inr (pretty z).

End Py.

Import Py.

(** ** Constants of the host platform

    The string values of the Home Assistant constants that climate.py
    imports. *)

Definition HVAC_MODE_OFF : string := "off".
Definition HVAC_MODE_HEAT : string := "heat".
Definition HVAC_MODE_COOL : string := "cool".
Definition HVAC_MODE_AUTO : string := "auto".
Definition HVAC_MODE_DRY : string := "dry".
Definition HVAC_MODE_FAN_ONLY : string := "fan_only".
Definition ATTR_TEMPERATURE : string := "temperature".
Definition DEFAULT_MIN_TEMP : Z := 7.
Definition DEFAULT_MAX_TEMP : Z := 35.

(** ** The two translation tables *)

Definition MODE_HA_TO_REMO : gmap string string :=
  <[HVAC_MODE_AUTO := "auto"]>
  (<[HVAC_MODE_FAN_ONLY := "blow"]>
  (<[HVAC_MODE_COOL := "cool"]>
  (<[HVAC_MODE_DRY := "dry"]>
  (<[HVAC_MODE_HEAT := "warm"]>
  (<[HVAC_MODE_OFF := "power-off"]> ∅))))).

Definition MODE_REMO_TO_HA : gmap string string :=
  <["auto" := HVAC_MODE_AUTO]>
  (<["blow" := HVAC_MODE_FAN_ONLY]>
  (<["cool" := HVAC_MODE_COOL]>
  (<["dry" := HVAC_MODE_DRY]>
  (<["warm" := HVAC_MODE_HEAT]>
  (<["power-off" := HVAC_MODE_OFF]> ∅))))).

(** ** Data handed to the entity *)

(** [appliance["settings"]]: the raw settings snapshot. Every field is a
    string on the wire; [s_temp] is kept as an optional arbitrary value
    because [_update] guards exactly that access: [None] is a snapshot
    without a ["temp"] key, [Some PyNone] a null reading. *)
Record Settings : Type := {
  s_mode : string;
  s_temp : option pyval;
  s_button : string;
  s_vol : string;
  s_dir : string;
}.

(** One entry of [appliance["aircon"]["range"]["modes"]]. *)
Record ModeRange : Type := {
  r_temp : list pyval;
  r_vol : list string;
  r_dir : list string;
}.

Record Appliance : Type := {
  a_id : string;
  a_nickname : string;
  a_modes : gmap string ModeRange;
  a_settings : Settings;
}.

(** Modelled from the spec: the configuration schema lives in the
    package's [__init__.py], which declares [CONF_COOL_TEMP] and
    [CONF_HEAT_TEMP]; the specification gives both entries as integers
    ([{default_cool_temperature: int, default_heat_temperature: int}]). *)
Record Config : Type := {
  cool_temp : Z;
  heat_temp : Z;
}.

(** A payload is a Python dict literal with string keys. *)
Abbreviation payload := (gmap string pyval).

(** The injected API client, as far as the entity uses it. *)
Record Api : Type := {
  api_post : string -> payload -> exn + pyval;
  api_get_appliance_list : string -> exn + Appliance;
}.

(** ** The entity *)

Record NatureRemoAC : Type := mkAC {
  _api : Api;
  _default_temp : gmap string Z;
  _name : string;
  _appliance_id : string;
  _modes : gmap string ModeRange;
  _hvac_mode : option string;
  _target_temperature : option spec_float;
  _remo_mode : option string;
  _fan_mode : option string;
  _swing_mode : option string;
}.

(** One call of [self._api.post(path, data)]. *)
Record PostCall : Type := { call_path : string; call_data : payload }.

(** What a method can touch: the entity's attributes and the calls made
    to the API client so far (most recent last). *)
Record world : Type := World { self : NatureRemoAC; posted : list PostCall }.

(** *** State and exceptions

    A computation returns a value or raises; either way it leaves a
    world behind, so assignments made before a [raise] stay made. *)

Definition M (A : Type) : Type := world -> (exn + A) * world.

Definition ret {A} (a : A) : M A := fun w => (inr a, w).

Definition bind {A B} (c : M A) (k : A -> M B) : M B :=
  fun w =>
    match c w with
    | (inr a, w') => k a w'
    | (inl e, w') => (inl e, w')
    end.

Definition raise {A} (e : exn) : M A := fun w => (inl e, w).

Definition lift {A} (r : exn + A) : M A :=
  match r with inl e => raise e | inr a => ret a end.

(** [try: body except: handler] with a bare [except]. *)
Definition try_except {A} (body handler : M A) : M A :=
  fun w =>
    match body w with
    | (inr a, w') => (inr a, w')
    | (inl _, w') => handler w'
    end.

Definition gets {A} (f : NatureRemoAC -> A) : M A := fun w => (inr (f (self w)), w).

Definition modify (f : NatureRemoAC -> NatureRemoAC) : M unit :=
  fun w => (inr tt, World (f (self w)) (posted w)).

Declare Scope py_scope.
Delimit Scope py_scope with py.
Notation "x <- c ;; k" := (bind c (fun x => k))
  (at level 100, c at next level, right associativity) : py_scope.
Notation "c ;; k" := (bind c (fun _ => k))
  (at level 100, right associativity) : py_scope.
Local Open Scope py_scope.

(** [d[k]] on a dict with string keys. *)
Definition getitem {V} (d : gmap string V) (k : string) : exn + V :=
  match d !! k with
  | Some v => inr v
  | None => inl (KeyError (PyStr k))
  end.

(** [d[k]] where [k] is an attribute that may still hold [None]. *)
Definition getitem_opt {V} (d : gmap string V) (k : option string) : exn + V :=
  match k with
  | Some k => getitem d k
  | None => inl (KeyError PyNone)
  end.

(** [x or None] for a string [x]. *)
Definition or_None (x : string) : option string :=
  if truthy (PyStr x) then Some x else None.

(** Attribute assignments. *)
Definition set_hvac_mode_attr (v : option string) (o : NatureRemoAC) :=
  mkAC (_api o) (_default_temp o) (_name o) (_appliance_id o) (_modes o)
       v (_target_temperature o) (_remo_mode o) (_fan_mode o) (_swing_mode o).
Definition set_target_temperature_attr (v : option spec_float) (o : NatureRemoAC) :=
  mkAC (_api o) (_default_temp o) (_name o) (_appliance_id o) (_modes o)
       (_hvac_mode o) v (_remo_mode o) (_fan_mode o) (_swing_mode o).
Definition set_remo_mode_attr (v : option string) (o : NatureRemoAC) :=
  mkAC (_api o) (_default_temp o) (_name o) (_appliance_id o) (_modes o)
       (_hvac_mode o) (_target_temperature o) v (_fan_mode o) (_swing_mode o).
Definition set_fan_mode_attr (v : option string) (o : NatureRemoAC) :=
  mkAC (_api o) (_default_temp o) (_name o) (_appliance_id o) (_modes o)
       (_hvac_mode o) (_target_temperature o) (_remo_mode o) v (_swing_mode o).
Definition set_swing_mode_attr (v : option string) (o : NatureRemoAC) :=
  mkAC (_api o) (_default_temp o) (_name o) (_appliance_id o) (_modes o)
       (_hvac_mode o) (_target_temperature o) (_remo_mode o) (_fan_mode o) v.

(** *** Methods *)

(** [_post]: one request on the appliance's settings resource. The
    response is only logged; an exception of the client propagates. *)
Definition _post (data : payload) : M unit :=
  fun w =>
    let path := "/appliances/" +:+ _appliance_id (self w) +:+ "/aircon_settings" in
    let w' := World (self w) (posted w ++ [Build_PostCall path data]) in
    match api_post (_api (self w)) path data with
    | inr _ => (inr tt, w')
    | inl e => (inl e, w')
    end.

(** [float(ac_settings["temp"])]: the subscript raises when the key is
    missing, the conversion when the value is not a number. *)
Definition temp_reading (ac_settings : Settings) : exn + spec_float :=
  match s_temp ac_settings with
  | Some v => float v
  | None => inl (KeyError (PyStr "temp"))
  end.

(** [_update]: ingestion of a settings snapshot. *)
Definition _update (appliance : Appliance) : M unit :=
  let ac_settings := a_settings appliance in
  modify (set_remo_mode_attr (Some (s_mode ac_settings))) ;;
  try_except
    (f <- lift (temp_reading ac_settings) ;;
     modify (set_target_temperature_attr (Some f)))
    (modify (set_target_temperature_attr None)) ;;
  off <- lift (getitem MODE_HA_TO_REMO HVAC_MODE_OFF) ;;
  (if String.eqb (s_button ac_settings) off
   then modify (set_hvac_mode_attr (Some HVAC_MODE_OFF))
   else
     remo_mode <- gets _remo_mode ;;
     hvac <- lift (getitem_opt MODE_REMO_TO_HA remo_mode) ;;
     modify (set_hvac_mode_attr (Some hvac))) ;;
  modify (set_fan_mode_attr (or_None (s_vol ac_settings))) ;;
  modify (set_swing_mode_attr (or_None (s_dir ac_settings))).

(** [update]: fetch the appliance, then ingest it. *)
Definition update : M unit :=
  api <- gets _api ;;
  appliance_id <- gets _appliance_id ;;
  appliance <- lift (api_get_appliance_list api appliance_id) ;;
  _update appliance.

(** The dict literal assigned to [self._default_temp]. *)
Definition default_temperatures (config : Config) : gmap string Z :=
  <[HVAC_MODE_COOL := cool_temp config]>
  (<[HVAC_MODE_HEAT := heat_temp config]> ∅).

(** [__init__]: the attributes as first assigned, before [_update]. *)
Definition blank (api : Api) (appliance : Appliance) (config : Config)
  : NatureRemoAC :=
  {| _api := api;
     _default_temp := default_temperatures config;
     _name := "Nature Remo " +:+ a_nickname appliance;
     _appliance_id := a_id appliance;
     _modes := a_modes appliance;
     _hvac_mode := None;
     _target_temperature := None;
     _remo_mode := None;
     _fan_mode := None;
     _swing_mode := None |}.

(** The constructor: the entity exists only if [_update] returned. *)
Definition __init__ (api : Api) (appliance : Appliance) (config : Config)
  : exn + NatureRemoAC :=
  match _update appliance (World (blank api appliance config) []) with
  | (inr _, w) => inr (self w)
  | (inl e, _) => inl e
  end.

(** [set_temperature], called with keyword arguments. *)
Definition set_temperature (kwargs : gmap string pyval) : M unit :=
  let target_temp := default PyNone (kwargs !! ATTR_TEMPERATURE) in
  match target_temp with
  | PyNone => ret tt
  | _ =>
      target_temp <- lift (int target_temp) ;;
      text <- lift (str_of_Z target_temp) ;;
      _post {[ "temperature" := PyStr text ]}
  end.

(** [set_hvac_mode(hvac_mode)]. *)
Definition set_hvac_mode (hvac_mode : string) : M unit :=
  mode <- lift (getitem MODE_HA_TO_REMO hvac_mode) ;;
  off <- lift (getitem MODE_HA_TO_REMO HVAC_MODE_OFF) ;;
  if String.eqb mode off
  then _post {[ "button" := PyStr mode ]}
  else
    default_temp <- gets _default_temp ;;
    _post (<["operation_mode" := PyStr mode]>
           {[ "temperature" :=
                default PyNone (PyInt <$> default_temp !! hvac_mode) ]}).

(** [set_fan_mode(fan_mode)]. *)
Definition set_fan_mode (fan_mode : string) : M unit :=
  _post {[ "air_volume" := PyStr fan_mode ]}.

(** [async_set_swing_mode(swing_mode)]. *)
Definition async_set_swing_mode (swing_mode : string) : M unit :=
  _post {[ "air_direction" := PyStr swing_mode ]}.

(** *** Read-only properties *)

Definition hvac_modes : list string :=
  [HVAC_MODE_AUTO; HVAC_MODE_FAN_ONLY; HVAC_MODE_COOL;
   HVAC_MODE_DRY; HVAC_MODE_HEAT; HVAC_MODE_OFF].

(** [self._modes[self._remo_mode]]. *)
Definition current_mode_entry (o : NatureRemoAC) : exn + ModeRange :=
  getitem_opt (_modes o) (_remo_mode o).

Definition fan_modes (o : NatureRemoAC) : exn + list string :=
  match current_mode_entry o with
  | inr r => inr (r_vol r)
  | inl e => inl e
  end.

Definition swing_modes (o : NatureRemoAC) : exn + list string :=
  match current_mode_entry o with
  | inr r => inr (r_dir r)
  | inl e => inl e
  end.

(** [list(map(int, xs))]: the first failing conversion raises. *)
Fixpoint list_map_int (xs : list pyval) : exn + list Z :=
  match xs with
  | [] => inr []
  | x :: xs' =>
      match int x with
      | inl e => inl e
      | inr z =>
          match list_map_int xs' with
          | inl e => inl e
          | inr zs => inr (z :: zs)
          end
      end
  end.

(** [_current_mode_temp_range]. *)
Definition _current_mode_temp_range (o : NatureRemoAC) : exn + list Z :=
  match current_mode_entry o with
  | inr r => list_map_int (List.filter truthy (r_temp r))
  | inl e => inl e
  end.

(** [min(l)] and [max(l)] on a non-empty list. *)
Definition list_min (z : Z) (l : list Z) : Z := fold_left Z.min l z.
Definition list_max (z : Z) (l : list Z) : Z := fold_left Z.max l z.

Definition min_temp (o : NatureRemoAC) : exn + Z :=
  match _current_mode_temp_range o with
  | inr [] => inr DEFAULT_MIN_TEMP
  | inr (z :: l) => inr (list_min z l)
  | inl e => inl e
  end.

Definition max_temp (o : NatureRemoAC) : exn + Z :=
  match _current_mode_temp_range o with
  | inr [] => inr DEFAULT_MAX_TEMP
  | inr (z :: l) => inr (list_max z l)
  | inl e => inl e
  end.

(** The attributes once the raw mode and the temperature are assigned,
    before the mode translation. *)
Definition after_reading (o : NatureRemoAC) (st : Settings) : NatureRemoAC :=
  set_target_temperature_attr
    (match temp_reading st with inr f => Some f | inl _ => None end)
    (set_remo_mode_attr (Some (s_mode st)) o).

(** The attributes when [_update] returns with normalized mode [h]. *)
Definition after_update (o : NatureRemoAC) (st : Settings) (h : string)
  : NatureRemoAC :=
  set_swing_mode_attr (or_None (s_dir st))
    (set_fan_mode_attr (or_None (s_vol st))
       (set_hvac_mode_attr (Some h) (after_reading o st))).

(** The request that [_post data] makes for entity [o]. *)
Definition request (o : NatureRemoAC) (data : payload) : PostCall :=
  {| call_path := "/appliances/" +:+ _appliance_id o +:+ "/aircon_settings";
     call_data := data |}.

(** The four command operations, to quantify over them. *)
Inductive command : Type :=
| SetTemperature (kwargs : gmap string pyval)
| SetHvacMode (hvac_mode : string)
| SetFanMode (fan_mode : string)
| SetSwingMode (swing_mode : string).

Definition run (c : command) : M unit :=
  match c with
  | SetTemperature kwargs => set_temperature kwargs
  | SetHvacMode m => set_hvac_mode m
  | SetFanMode v => set_fan_mode v
  | SetSwingMode v => async_set_swing_mode v
  end.

(** ** The specification's wording of the mode command

    Written from the specification, to be compared with
    [set_hvac_mode]: the default temperature of the target mode, and the
    payload for a normalized mode and its raw token. *)

(** The fixed bidirectional mapping, from the normalized side:
    auto to auto, fan_only to blow, cool to cool, dry to dry, heat to
    warm, off to power-off. *)
Definition spec_raw_token (m : string) : option string :=
  if String.eqb m "auto" then Some "auto"
  else if String.eqb m "fan_only" then Some "blow"
  else if String.eqb m "cool" then Some "cool"
  else if String.eqb m "dry" then Some "dry"
  else if String.eqb m "heat" then Some "warm"
  else if String.eqb m "off" then Some "power-off"
  else None.

Definition spec_default_temperature (config : Config) (m : string) : pyval :=
  if String.eqb m "cool" then PyInt (cool_temp config)
  else if String.eqb m "heat" then PyInt (heat_temp config)
  else PyNone.

Definition spec_hvac_payload (config : Config) (m raw : string) : payload :=
  if String.eqb m "off" then {[ "button" := PyStr "power-off" ]}
  else <["operation_mode" := PyStr raw]>
       {[ "temperature" := spec_default_temperature config m ]}.

(** A finite binary64 [(-1)^s * m * 2^e] as a fraction
    [float_num / float_den] of integers. *)
Definition float_num (s : bool) (m : positive) (e : Z) : Z :=
  cond_Zopp s (Z.pos m * 2 ^ Z.max e 0).
Definition float_den (e : Z) : Z := 2 ^ Z.max (- e) 0.

(** A payload value that is a string or null. *)
Definition str_or_null (v : pyval) : Prop :=
  match v with
  | PyStr _ | PyNone => True
  | _ => False
  end.

(** A payload value that is a string. *)
Definition is_str (v : pyval) : Prop := exists s, v = PyStr s.

(** What [filter(None, ...)] takes out of a range: the falsy values,
    which are [None], the empty string and a zero, integer or float. *)
Definition falsy (v : pyval) : Prop :=
  v = PyNone \/ v = PyStr "" \/ v = PyInt 0 \/ exists s, v = PyFloat (S754_zero s).

(** [kept] is [xs] without its falsy elements, in the order of [xs]. *)
Inductive drop_falsy : list pyval -> list pyval -> Prop :=
| drop_nil : drop_falsy [] []
| drop_skip x xs kept : falsy x -> drop_falsy xs kept -> drop_falsy (x :: xs) kept
| drop_keep x xs kept :
    ~ falsy x -> drop_falsy xs kept -> drop_falsy (x :: xs) (x :: kept).

(** A payload all of whose values are strings or null. *)
Definition flat_strings (p : payload) : Prop :=
  forall k v, p !! k = Some v -> str_or_null v.

(** ** Running examples *)

Module Demo.

Definition api_ok : Api :=
  {| api_post := fun _ _ => inr PyNone;
     api_get_appliance_list := fun _ => inl (ApiError "offline") |}.

Definition cool_range : ModeRange :=
  {| r_temp := [PyStr "18"; PyStr "30"];
     r_vol := ["auto"; "low"];
     r_dir := ["auto"; "1"] |}.

Definition snapshot (mode button : string) (temp : option pyval) : Settings :=
  {| s_mode := mode; s_temp := temp; s_button := button;
     s_vol := "auto"; s_dir := "auto" |}.

Definition appliance (st : Settings) : Appliance :=
  {| a_id := "ac-1"; a_nickname := "Living";
     a_modes := {[ "cool" := cool_range ]};
     a_settings := st |}.

Definition warm_range : ModeRange :=
  {| r_temp := [PyStr "16"; PyStr "28"];
     r_vol := ["auto"; "high"];
     r_dir := ["swing"] |}.

(** An appliance that can cool and heat. *)
Definition warm_appliance (st : Settings) : Appliance :=
  {| a_id := "ac-2"; a_nickname := "Bedroom";
     a_modes := <["cool" := cool_range]> {[ "warm" := warm_range ]};
     a_settings := st |}.

(** A range with blanks, as the specification's example has it. *)
Definition blanks_range : ModeRange :=
  {| r_temp := [PyStr "18"; PyStr ""; PyStr "30"; PyNone];
     r_vol := []; r_dir := [] |}.

(** A range listed from the top down. *)
Definition descending_range : ModeRange :=
  {| r_temp := [PyStr "30"; PyStr ""; PyStr "18"];
     r_vol := []; r_dir := [] |}.

Definition empty_range : ModeRange :=
  {| r_temp := [PyStr ""; PyNone]; r_vol := []; r_dir := [] |}.

(** An entity in raw mode ["cool"] whose ["cool"] entry is [r]. *)
Definition entity_with (r : ModeRange) : NatureRemoAC :=
  {| _api := api_ok;
     _default_temp := ∅;
     _name := "Nature Remo Living";
     _appliance_id := "ac-1";
     _modes := {[ "cool" := r ]};
     _hvac_mode := Some HVAC_MODE_COOL;
     _target_temperature := None;
     _remo_mode := Some "cool";
     _fan_mode := None;
     _swing_mode := None |}.

Definition config : Config := {| cool_temp := 26; heat_temp := 20 |}.

Definition entity0 : NatureRemoAC :=
  blank api_ok (appliance (snapshot "cool" "cool" (Some (PyStr "25")))) config.

(** The entity after construction from the snapshot above. *)
Definition entity : NatureRemoAC :=
  self (_update (appliance (snapshot "cool" "cool" (Some (PyStr "25"))))
                (World entity0 [])).2.

(** That entity with no call made yet. *)
Definition w0 : world := World entity [].

(** Snapshots of the living-room appliance: in mode ["cool"] with a given
    temperature field; switched off in mode ["cool"] and in mode
    ["warm"]; switched on with a mode that is no raw token; and with the
    token ["power-off"] in the mode field. *)
Definition cool_with (temp : option pyval) : Appliance :=
  appliance (snapshot "cool" "cool" temp).
Definition cool_off : Appliance :=
  appliance (snapshot "cool" "power-off" (Some (PyStr "25"))).
Definition warm_off : Appliance :=
  appliance (snapshot "warm" "power-off" (Some (PyStr "25"))).
Definition turbo_on : Appliance :=
  appliance (snapshot "turbo" "" (Some (PyStr "25"))).
Definition turbo_abc : Appliance :=
  appliance (snapshot "turbo" "" (Some (PyStr "abc"))).
Definition power_off_mode : Appliance :=
  appliance (snapshot "power-off" "" (Some (PyStr "25"))).

(** The bedroom appliance, switched off while heating, and its entity
    as first assigned. *)
Definition bedroom_off : Appliance :=
  warm_appliance (snapshot "warm" "power-off" (Some (PyStr "25"))).
Definition bedroom0 : world := World (blank api_ok bedroom_off config) [].

(** 24.7 as a binary64. *)
Definition f24_7 : spec_float := S754_finite false 6952431924753203 (-48).

End Demo.

(** ** The platform around the entity *)

(** [name] and [unique_id]. *)
Definition name (o : NatureRemoAC) : string := _name o.
Definition unique_id (o : NatureRemoAC) : string := _appliance_id o.

(** An element of [hass.data[DOMAIN]["appliances"]]: the appliance
    together with its ["type"] entry, which only [setup_platform]
    reads. *)
Record Discovered : Type := {
  d_type : string;
  d_appliance : Appliance;
}.

(** [hass.data[DOMAIN]]. *)
Record HassData : Type := {
  h_api : Api;
  h_appliances : list Discovered;
  h_config : Config;
}.

(** The list comprehension of [setup_platform]: one entity per appliance
    of type ["AC"], built in order; the first constructor that raises
    ends it. *)
Fixpoint build_entities (api : Api) (config : Config) (ds : list Discovered)
  : exn + list NatureRemoAC :=
  match ds with
  | [] => inr []
  | d :: ds' =>
      if String.eqb (d_type d) "AC" then
        match __init__ api (d_appliance d) config with
        | inl e => inl e
        | inr o =>
            match build_entities api config ds' with
            | inl e => inl e
            | inr os => inr (o :: os)
            end
        end
      else build_entities api config ds'
  end.

(** [setup_platform]: [None] stands for a return without a call of
    [add_entities], [Some l] for [add_entities(l)]. The argument
    [discovery_info] is [None] or a dict. *)
Definition setup_platform (data : HassData)
  (discovery_info : option (gmap string pyval))
  : exn + option (list NatureRemoAC) :=
  match discovery_info with
  | None => inr None
  | Some _ =>
      match build_entities (h_api data) (h_config data) (h_appliances data) with
      | inl e => inl e
      | inr os => inr (Some os)
      end
  end.

(** What the host does with an entity: it polls it ([update]), it sends
    it a command, and through [update] it makes it ingest whatever
    appliance the client fetched ([Ingest] stands for a poll whose
    fetch returned that appliance). *)
Inductive operation : Type :=
| Ingest (appliance : Appliance)
| Poll
| Do (c : command).

Definition perform (op : operation) : M unit :=
  match op with
  | Ingest a => _update a
  | Poll => update
  | Do c => run c
  end.

(** A sequence of calls on one entity. An exception ends the call that
    raised it; the entity stays in use. *)
Fixpoint perform_all (ops : list operation) (w : world) : world :=
  match ops with
  | [] => w
  | op :: ops' => perform_all ops' (perform op w).2
  end.

(** The requests a command makes on entity [o], first to last. *)
Definition emitted (c : command) (o : NatureRemoAC) : list PostCall :=
  posted (run c (World o [])).2.

(** The path of every request of entity [o]. *)
Definition settings_path (o : NatureRemoAC) : string :=
  "/appliances/" +:+ _appliance_id o +:+ "/aircon_settings".

(** The number that a run of digits denotes, continuing from [v]. *)
Definition digits_value (cs : list ascii) (v : Z) : Z :=
  fold_left (fun v c => 10 * v + default 0 (digit_of c)) cs v.

(** [cs] is the decimal numeral of the positive integer [n]: digits
    only, of value [n], as many as [n] needs (no leading zero). *)
Definition numeral (n : Z) (cs : list ascii) : Prop :=
  Forall (fun c => is_Some (digit_of c)) cs /\
  digits_value cs 0 = n /\
  10 ^ (Z.of_nat (length cs) - 1) <= n.

(** [s] is the integer [z] written out in base ten: ["0"] for zero, the
    numeral for a positive integer, a minus sign and the numeral of the
    opposite for a negative one. *)
Definition decimal_of (z : Z) (s : string) : Prop :=
  match z with
  | 0 => s = "0"
  | Z.pos _ => numeral z (list_ascii_of_string s)
  | Z.neg _ => exists s', s = "-" +:+ s' /\ numeral (- z) (list_ascii_of_string s')
  end.

(** The appliances that [setup_platform] turns into entities. *)
Definition air_conditioners (ds : list Discovered) : list Appliance :=
  map d_appliance (List.filter (fun d => String.eqb (d_type d) "AC") ds).

(** A snapshot that [_update] can translate: the device is off, or its
    mode is a raw token of the table. *)
Definition ingestible (a : Appliance) : Prop :=
  s_button (a_settings a) = "power-off" \/
  is_Some (MODE_REMO_TO_HA !! s_mode (a_settings a)).

(** An entity in use: its mode is one of the six normalized modes, a
    raw mode is retained, and neither fan nor swing is the empty
    string. *)
Definition normalized (o : NatureRemoAC) : Prop :=
  (exists m, _hvac_mode o = Some m /\ m ∈ hvac_modes) /\
  is_Some (_remo_mode o) /\
  _fan_mode o <> Some "" /\
  _swing_mode o <> Some "".

(** [o'] has the attributes that the constructor gave [o]. *)
Definition same_setup (o o' : NatureRemoAC) : Prop :=
  _api o' = _api o /\
  _default_temp o' = _default_temp o /\
  _name o' = _name o /\
  _appliance_id o' = _appliance_id o /\
  _modes o' = _modes o.

(** The requests of one call, as far as they do not depend on the
    entity's state: those of the command, none for a poll. *)
Definition requests_of (o : NatureRemoAC) (op : operation) : list PostCall :=
  match op with
  | Do c => emitted c o
  | Ingest _ | Poll => []
  end.

Module Site.

(** A client whose [post] is refused and whose fetch returns the
    bedroom appliance, switched off while heating. *)
Definition api_down : Api :=
  {| api_post := fun _ _ => inl (ApiError "503");
     api_get_appliance_list := fun _ => inr Demo.bedroom_off |}.

(** The bedroom entity behind that client. *)
Definition bedroom : NatureRemoAC :=
  self (_update Demo.bedroom_off (World (blank api_down Demo.bedroom_off Demo.config) [])).2.

Definition tv : Discovered :=
  {| d_type := "TV"; d_appliance := Demo.turbo_on |}.
Definition living_ac : Discovered :=
  {| d_type := "AC"; d_appliance := Demo.cool_with (Some (PyStr "25")) |}.
Definition bedroom_ac : Discovered :=
  {| d_type := "AC"; d_appliance := Demo.bedroom_off |}.
Definition turbo_ac : Discovered :=
  {| d_type := "AC"; d_appliance := Demo.turbo_on |}.

(** The range of blanks of the specification's example, listed in
    another order. *)
Definition shuffled_range : ModeRange :=
  {| r_temp := [PyNone; PyStr "30"; PyStr "18"; PyStr ""];
     r_vol := []; r_dir := [] |}.

(** A range given as integers, around zero. *)
Definition around_zero : ModeRange :=
  {| r_temp := [PyInt (-1); PyInt 0; PyInt 1]; r_vol := []; r_dir := [] |}.

(** A range in steps of half a degree. *)
Definition half_degrees : ModeRange :=
  {| r_temp := [PyStr "18"; PyStr ""; PyStr "18.5"; PyStr "19"];
     r_vol := []; r_dir := [] |}.

Definition home : HassData :=
  {| h_api := Demo.api_ok;
     h_appliances := [tv; living_ac; bedroom_ac];
     h_config := Demo.config |}.

End Site.


(** * Properties *)

(** ** The translation tables *)

Lemma MODE_HA_TO_REMO_Some m r :
  MODE_HA_TO_REMO !! m = Some r <->
  (m, r) ∈ [("auto", "auto"); ("fan_only", "blow"); ("cool", "cool");
            ("dry", "dry"); ("heat", "warm"); ("off", "power-off")].
Proof.
  unfold MODE_HA_TO_REMO.
  rewrite !lookup_insert_Some, lookup_empty, !elem_of_cons, elem_of_nil.
  unfold HVAC_MODE_AUTO, HVAC_MODE_FAN_ONLY, HVAC_MODE_COOL, HVAC_MODE_DRY,
    HVAC_MODE_HEAT, HVAC_MODE_OFF.
  split.
  - intros H. repeat (destruct H as [[<- <-]|[? H]]; [tauto|]). done.
  - intros H.
    repeat (destruct H as [[= -> ->]|H];
            [repeat (first [left; split; reflexivity | right; split; [discriminate|]])|]).
    done.
Qed.

Lemma MODE_REMO_TO_HA_Some r m :
  MODE_REMO_TO_HA !! r = Some m <->
  (r, m) ∈ [("auto", "auto"); ("blow", "fan_only"); ("cool", "cool");
            ("dry", "dry"); ("warm", "heat"); ("power-off", "off")].
Proof.
  unfold MODE_REMO_TO_HA.
  rewrite !lookup_insert_Some, lookup_empty, !elem_of_cons, elem_of_nil.
  unfold HVAC_MODE_AUTO, HVAC_MODE_FAN_ONLY, HVAC_MODE_COOL, HVAC_MODE_DRY,
    HVAC_MODE_HEAT, HVAC_MODE_OFF.
  split.
  - intros H. repeat (destruct H as [[<- <-]|[? H]]; [tauto|]). done.
  - intros H.
    repeat (destruct H as [[= -> ->]|H];
            [repeat (first [left; split; reflexivity | right; split; [discriminate|]])|]).
    done.
Qed.

(** [hvac_modes] lists the keys of [MODE_HA_TO_REMO]. *)
Lemma hvac_modes_keys m : m ∈ hvac_modes <-> is_Some (MODE_HA_TO_REMO !! m).
Proof.
  unfold hvac_modes, is_Some. rewrite !elem_of_cons, elem_of_nil.
  split.
  - intros H. repeat (destruct H as [->|H]; [eexists; reflexivity|]). done.
  - intros [r H]. apply MODE_HA_TO_REMO_Some in H.
    rewrite !elem_of_cons, elem_of_nil in H.
    repeat (destruct H as [[= -> ->]|H]; [vm_compute; tauto|]). done.
Qed.

(** C6: translating any of the six normalized modes to its raw token
    and back gives the mode again. *)
Theorem mode_translation_round_trip (m : string) :
  m ∈ hvac_modes ->
  exists raw, MODE_HA_TO_REMO !! m = Some raw /\ MODE_REMO_TO_HA !! raw = Some m.
Proof.
  unfold hvac_modes. rewrite !elem_of_cons, elem_of_nil.
  intros H.
  repeat (destruct H as [->|H]; [eexists; split; reflexivity|]). done.
Qed.

Lemma mode_translation_round_trip_witness :
  "heat" ∈ hvac_modes /\
  exists raw, MODE_HA_TO_REMO !! "heat" = Some raw /\ MODE_REMO_TO_HA !! raw = Some "heat".
Proof.
  split.
  - unfold hvac_modes. set_solver.
  - apply (mode_translation_round_trip "heat"). unfold hvac_modes. set_solver.
Defined.

(** ** Commands *)

Lemma _post_eq data w :
  _post data w =
  (match api_post (_api (self w)) (call_path (request (self w) data)) data with
   | inr _ => inr tt
   | inl e => inl e
   end,
   World (self w) (posted w ++ [request (self w) data])).
Proof. unfold _post, request. simpl. by destruct (api_post _ _ _). Qed.

(** What the mode command sends, for a mode of the table. *)
Lemma set_hvac_mode_eq m raw w :
  MODE_HA_TO_REMO !! m = Some raw ->
  set_hvac_mode m w =
  _post (if String.eqb raw "power-off" then {[ "button" := PyStr raw ]}
         else <["operation_mode" := PyStr raw]>
              {[ "temperature" :=
                   default PyNone (PyInt <$> _default_temp (self w) !! m) ]}) w.
Proof.
  intros Hm. unfold set_hvac_mode, bind, lift, getitem. rewrite Hm. simpl.
  change (MODE_HA_TO_REMO !! HVAC_MODE_OFF) with (Some "power-off").
  simpl. by destruct (String.eqb raw "power-off").
Qed.

Lemma set_hvac_mode_unknown m w :
  MODE_HA_TO_REMO !! m = None ->
  set_hvac_mode m w = (inl (KeyError (PyStr m)), w).
Proof.
  intros Hm. unfold set_hvac_mode, bind, lift, getitem. by rewrite Hm.
Qed.

(** C4: for each of the six normalized modes, with its raw token in the
    fixed mapping (auto, blow, cool, dry, warm, power-off),
    [set_hvac_mode] posts one payload: [{button: "power-off"}] alone
    for [off], and otherwise the raw token as [operation_mode] with the
    default temperature of the target mode, which is the configured
    value for [cool] and [heat] and [None] for [auto], [dry] and
    [fan_only]. *)
Theorem set_hvac_mode_payload (config : Config) (w : world) (m raw : string) :
  _default_temp (self w) = default_temperatures config ->
  spec_raw_token m = Some raw ->
  posted (set_hvac_mode m w).2 =
    (posted w ++ [request (self w) (spec_hvac_payload config m raw)])%list /\
  (m = "off" ->
   spec_hvac_payload config m raw = {[ "button" := PyStr "power-off" ]} /\
   spec_hvac_payload config m raw !! "temperature" = None /\
   spec_hvac_payload config m raw !! "operation_mode" = None) /\
  (m <> "off" ->
   spec_hvac_payload config m raw !! "operation_mode" = Some (PyStr raw) /\
   spec_hvac_payload config m raw !! "temperature" =
     Some (spec_default_temperature config m) /\
   spec_hvac_payload config m raw !! "button" = None).
Proof.
  intros Hd Hraw. unfold spec_raw_token in Hraw.
  repeat match type of Hraw with
         | (if String.eqb ?x ?y then _ else _) = _ =>
             destruct (String.eqb_spec x y) as [->|?]
         end;
    try discriminate Hraw; injection Hraw as <-;
    (split; [erewrite set_hvac_mode_eq by reflexivity; rewrite _post_eq, Hd;
             reflexivity|];
     split; [intros; try discriminate; repeat split; reflexivity
            |intros; try congruence; repeat split; reflexivity]).
Qed.

Lemma set_hvac_mode_payload_witness :
  posted (set_hvac_mode "heat" Demo.w0).2 =
    [request Demo.entity
       (<["operation_mode" := PyStr "warm"]> {[ "temperature" := PyInt 20 ]})] /\
  posted (set_hvac_mode "fan_only" Demo.w0).2 =
    [request Demo.entity
       (<["operation_mode" := PyStr "blow"]> {[ "temperature" := PyNone ]})] /\
  posted (set_hvac_mode "off" Demo.w0).2 =
    [request Demo.entity {[ "button" := PyStr "power-off" ]}].
Proof.
  split; [|split].
  - apply (set_hvac_mode_payload Demo.config Demo.w0 "heat" "warm"); reflexivity.
  - apply (set_hvac_mode_payload Demo.config Demo.w0 "fan_only" "blow"); reflexivity.
  - apply (set_hvac_mode_payload Demo.config Demo.w0 "off" "power-off"); reflexivity.
Defined.

(** The three payloads of the specification's example, with the
    defaults [{cool: 26, heat: 20}]. *)
Example set_hvac_mode_examples :
  posted (set_hvac_mode "cool" Demo.w0).2 =
    [request Demo.entity
       (<["operation_mode" := PyStr "cool"]> {[ "temperature" := PyInt 26 ]})] /\
  posted (set_hvac_mode "off" Demo.w0).2 =
    [request Demo.entity {[ "button" := PyStr "power-off" ]}] /\
  posted (set_hvac_mode "auto" Demo.w0).2 =
    [request Demo.entity
       (<["operation_mode" := PyStr "auto"]> {[ "temperature" := PyNone ]})] /\
  set_hvac_mode "heat_cool" Demo.w0 = (inl (KeyError (PyStr "heat_cool")), Demo.w0).
Proof. repeat split. Qed.

(** ** Integers written out and read back *)

Lemma digit_not_space c d : digit_of c = Some d -> is_space c = false.
Proof.
  destruct c as [[] [] [] [] [] [] [] []]; intros H; try discriminate H; reflexivity.
Qed.

Lemma take_sign_digit c d cs : digit_of c = Some d -> take_sign (c :: cs) = (false, c :: cs).
Proof.
  destruct c as [[] [] [] [] [] [] [] []]; intros H; try discriminate H; reflexivity.
Qed.

Lemma lstrip_no_space c cs : is_space c = false -> lstrip (c :: cs) = c :: cs.
Proof. intros H. simpl. by rewrite H. Qed.

Lemma strip_no_space c cs c' :
  is_space c = false -> is_space c' = false ->
  strip (c :: cs ++ [c']) = (c :: cs ++ [c'])%list.
Proof.
  intros Hc Hc'. unfold strip. rewrite (lstrip_no_space _ _ Hc).
  rewrite app_comm_cons, rev_unit, (lstrip_no_space _ _ Hc').
  change (rev (c' :: rev (c :: cs))) with (rev (rev (c :: cs)) ++ [c'])%list.
  by rewrite rev_involutive.
Qed.

Lemma strip_single c : is_space c = false -> strip [c] = [c].
Proof. intros H. unfold strip. simpl. rewrite H. simpl. by rewrite H. Qed.

#[local] Arguments digit_of : simpl never.

Lemma digits_value_app cs cs' v :
  digits_value (cs ++ cs') v = digits_value cs' (digits_value cs v).
Proof. unfold digits_value. apply fold_left_app. Qed.

(** A run of digits is read to its end, and counted. *)
Lemma digitpart_tail_digits cs acc :
  Forall (fun c => is_Some (digit_of c)) cs ->
  digitpart_tail cs acc
  = (Digits (digits_value cs (dvalue acc)) (dcount acc + Z.of_nat (length cs)), []).
Proof.
  intros Hcs. revert acc. induction Hcs as [|c cs [d Hd] _ IH]; intros acc.
  - destruct acc. simpl. by rewrite Z.add_0_r.
  - cbn [digitpart_tail]. rewrite Hd, IH. unfold digits_value. cbn [fold_left length].
    rewrite Hd. simpl. do 2 f_equal. lia.
Qed.

Lemma pretty_N_char_digit x :
  (x < 10)%N -> digit_of (pretty_N_char x) = Some (Z.of_N x).
Proof.
  intros Hx.
  assert (x = 0 \/ x = 1 \/ x = 2 \/ x = 3 \/ x = 4 \/ x = 5 \/ x = 6 \/
          x = 7 \/ x = 8 \/ x = 9)%N as H by lia.
  repeat (destruct H as [->|H]; [reflexivity|]). by subst.
Qed.

(** What [pretty] puts in front of [s] for [x]: nothing for zero, and
    otherwise the digits of [x], as many as [x] needs. *)
Lemma pretty_N_go_digits_of x s :
  exists ds,
    list_ascii_of_string (pretty_N_go x s) = (ds ++ list_ascii_of_string s)%list /\
    Forall (fun c => is_Some (digit_of c)) ds /\
    digits_value ds 0 = Z.of_N x /\
    (x = 0%N -> ds = []) /\
    ((0 < x)%N ->
     10 ^ (Z.of_nat (length ds) - 1) <= Z.of_N x < 10 ^ Z.of_nat (length ds)).
Proof.
  revert s. induction (N.lt_wf_0 x) as [x _ IH]; intros s.
  destruct (decide (x = 0)%N) as [->|Hx].
  - exists []. rewrite pretty_N_go_0. repeat split; try done; lia.
  - rewrite pretty_N_go_step by lia.
    destruct (IH (x `div` 10)%N ltac:(apply N.div_lt; lia)
                (String (pretty_N_char (x `mod` 10)) s))
      as (ds & Hds & Hdig & Hval & Hzero & Hlen).
    assert (Hc : digit_of (pretty_N_char (x `mod` 10)) = Some (Z.of_N (x `mod` 10)))
      by (apply pretty_N_char_digit, N.mod_lt; lia).
    assert (Hx10 : Z.of_N x = 10 * Z.of_N (x `div` 10) + Z.of_N (x `mod` 10)).
    { pose proof (N.div_mod x 10 ltac:(lia)) as E.
      apply (f_equal Z.of_N) in E. by rewrite N2Z.inj_add, N2Z.inj_mul in E. }
    assert (Hmod : 0 <= Z.of_N (x `mod` 10) < 10).
    { assert (H : (x `mod` 10 < 10)%N) by (apply N.mod_lt; lia).
      apply N2Z.inj_lt in H. pose proof (N2Z.is_nonneg (x `mod` 10)). lia. }
    exists (ds ++ [pretty_N_char (x `mod` 10)])%list.
    split; [|split; [|split; [|split]]].
    + rewrite Hds. simpl. by rewrite <- app_assoc.
    + apply Forall_app. split; [done|]. constructor; [by eexists | constructor].
    + rewrite digits_value_app, Hval. unfold digits_value. simpl.
      rewrite Hc. simpl. lia.
    + done.
    + intros _. rewrite length_app. simpl length.
      destruct (decide (x `div` 10 = 0)%N) as [Hq|Hq].
      * rewrite (Hzero Hq). simpl. rewrite Hq in Hx10. lia.
      * destruct (Hlen ltac:(lia)) as [Hlo Hhi].
        replace (Z.of_nat (length ds + 1) - 1) with (Z.succ (Z.of_nat (length ds) - 1)) by lia.
        replace (Z.of_nat (length ds + 1)) with (Z.succ (Z.of_nat (length ds))) by lia.
        assert (0 < length ds)%nat.
        { destruct ds; [|simpl; lia]. simpl in Hval. lia. }
        rewrite !Z.pow_succ_r by lia. lia.
Qed.

Lemma strip_digits cs :
  Forall (fun c => is_Some (digit_of c)) cs -> strip cs = cs.
Proof.
  destruct cs as [|c cs]; [reflexivity|]. revert c.
  induction cs as [|c' cs _] using rev_ind; intros c Hcs.
  - inversion Hcs as [|? ? [d Hd] _]; subst.
    apply strip_single. by eapply digit_not_space.
  - inversion Hcs as [|? ? [d Hd] Htl]; subst.
    apply Forall_app in Htl as [_ Hlast].
    inversion Hlast as [|? ? [d' Hd'] _]; subst.
    apply strip_no_space; by eapply digit_not_space.
Qed.

Lemma strip_signed cs :
  Forall (fun c => is_Some (digit_of c)) cs -> cs <> [] ->
  strip ("-"%char :: cs) = "-"%char :: cs.
Proof.
  induction cs as [|c' cs _] using rev_ind; intros Hcs Hne; [done|].
  apply Forall_app in Hcs as [_ Hlast].
  inversion Hlast as [|? ? [d' Hd'] _]; subst.
  apply strip_no_space; [reflexivity | by eapply digit_not_space].
Qed.

(** A numeral is not empty, and it is read as its number with its
    length as the count of digits. *)
Lemma numeral_digitpart n cs :
  0 < n -> numeral n cs ->
  cs <> [] /\ digitpart cs = Some (Digits n (Z.of_nat (length cs)), []).
Proof.
  intros Hn (Hdig & Hval & _).
  destruct Hdig as [|c cs [d Hd] Hcs]; [simpl in Hval; lia|].
  split; [done|]. unfold digitpart, digitpart_from. rewrite Hd.
  rewrite (digitpart_tail_digits _ _ Hcs). simpl dvalue. simpl dcount.
  unfold digits_value in Hval. cbn [fold_left] in Hval. rewrite Hd in Hval.
  simpl in Hval. unfold digits_value. rewrite Hval.
  do 3 f_equal. simpl length. lia.
Qed.

Lemma str_limit_pos : 0 < str_limit.
Proof. unfold str_limit. apply Z.pow_pos_nonneg; [reflexivity | discriminate]. Qed.

Lemma numeral_length n cs :
  0 < n -> numeral n cs -> n < str_limit ->
  Z.of_nat (length cs) <= max_str_digits.
Proof.
  intros Hn (_ & _ & Hlen) Hlim.
  destruct (Z_le_gt_dec (Z.of_nat (length cs)) max_str_digits) as [|Hk]; [done|exfalso].
  assert (Hle : str_limit <= 10 ^ (Z.of_nat (length cs) - 1)).
  { unfold str_limit. apply Z.pow_le_mono_r; [reflexivity|].
    unfold max_str_digits in *. lia. }
  lia.
Qed.

Lemma pretty_pos_numeral p :
  numeral (Z.pos p) (list_ascii_of_string (pretty_N_go (N.pos p) "")).
Proof.
  destruct (pretty_N_go_digits_of (N.pos p) "") as (ds & Hds & Hdig & Hval & _ & Hlen).
  simpl in Hds. rewrite app_nil_r in Hds. rewrite Hds.
  split; [done|]. split; [done|]. by destruct (Hlen eq_refl).
Qed.

(** [pretty] writes an integer out in base ten. *)
Lemma decimal_of_pretty z : decimal_of z (pretty z).
Proof.
  destruct z as [|p|p].
  - reflexivity.
  - apply pretty_pos_numeral.
  - exists (pretty_N_go (N.pos p) ""). split; [reflexivity|].
    apply pretty_pos_numeral.
Qed.

Lemma pow2_below_limit : 2 ^ 14284 <= str_limit.
Proof. vm_compute. discriminate. Qed.

Lemma str_of_Z_small z : Z.abs z < str_limit -> str_of_Z z = inr (pretty z).
Proof.
  intros Hz. unfold str_of_Z.
  destruct (Z.log2 (Z.abs z) <? 14284); [done|].
  destruct (Z.leb_spec str_limit (Z.abs z)); [lia|done].
Qed.

Lemma str_of_Z_large z : str_limit <= Z.abs z -> str_of_Z z = inl ValueError.
Proof.
  intros Hz. unfold str_of_Z. pose proof str_limit_pos as Hpos.
  destruct (Z.ltb_spec (Z.log2 (Z.abs z)) 14284) as [Hlog|_].
  - exfalso. assert (Hz0 : 0 < Z.abs z) by lia.
    apply (Z.log2_lt_pow2 _ _ Hz0) in Hlog.
    pose proof pow2_below_limit as Hpow.
    revert Hlog Hpow. generalize (2 ^ 14284). intros P ? ?. lia.
  - destruct (Z.leb_spec str_limit (Z.abs z)); [done|lia].
Qed.

(** What [str] makes of an integer: its decimal numeral, or
    [ValueError] from [10 ^ 4300] on. *)
Lemma str_of_Z_spec z :
  (Z.abs z < str_limit /\
   exists s, str_of_Z z = inr s /\ decimal_of z s) \/
  (str_limit <= Z.abs z /\ str_of_Z z = inl ValueError).
Proof.
  destruct (Z_lt_le_dec (Z.abs z) str_limit) as [Hz|Hz].
  - left. split; [done|]. exists (pretty z).
    split; [by apply str_of_Z_small | apply decimal_of_pretty].
  - right. split; [done | by apply str_of_Z_large].
Qed.

(** [int] reads a decimal numeral back as its integer, within the limit
    on digits. *)
Lemma int_of_string_decimal z s :
  decimal_of z s -> Z.abs z < str_limit -> int_of_string s = Some z.
Proof.
  intros Hdec Hlim. unfold int_of_string. destruct z as [|p|p]; simpl in Hdec.
  - by subst.
  - destruct (numeral_digitpart _ _ (Pos2Z.is_pos p) Hdec) as [Hne Hpart].
    pose proof (numeral_length _ _ (Pos2Z.is_pos p) Hdec Hlim) as Hlen.
    destruct Hdec as (Hdig & _).
    rewrite (strip_digits _ Hdig).
    destruct (list_ascii_of_string s) as [|c cs]; [done|].
    inversion Hdig as [|? ? [d Hd] _]; subst.
    rewrite (take_sign_digit _ _ _ Hd), Hpart. simpl dcount. simpl dvalue.
    case Z.ltb_spec; [intros; simpl length in *; lia | done].
  - destruct Hdec as (s' & -> & Hnum).
    destruct (numeral_digitpart _ _ (Pos2Z.is_pos p) Hnum) as [Hne Hpart].
    pose proof (numeral_length _ _ (Pos2Z.is_pos p) Hnum Hlim) as Hlen.
    destruct Hnum as (Hdig & _).
    change (list_ascii_of_string ("-" +:+ s'))
      with ("-"%char :: list_ascii_of_string s').
    rewrite (strip_signed _ Hdig Hne). cbn [take_sign]. rewrite Hpart.
    simpl dcount. simpl dvalue.
    case Z.ltb_spec; [intros; simpl length in *; lia | done].
Qed.

#[global] Opaque str_limit.

Lemma set_temperature_none kwargs w :
  default PyNone (kwargs !! ATTR_TEMPERATURE) = PyNone ->
  set_temperature kwargs w = (inr tt, w).
Proof. intros H. unfold set_temperature. by rewrite H. Qed.

(** [set_temperature] on a value: the conversion, the string, the
    request. *)
Lemma set_temperature_value kwargs v w :
  kwargs !! ATTR_TEMPERATURE = Some v -> v <> PyNone ->
  set_temperature kwargs w =
  match int v with
  | inr z =>
      match str_of_Z z with
      | inr text => _post {[ "temperature" := PyStr text ]} w
      | inl e => (inl e, w)
      end
  | inl e => (inl e, w)
  end.
Proof.
  intros Hk Hv. unfold set_temperature. rewrite Hk. cbn [default].
  assert (Hgo : (target_temp <- lift (int v) ;;
                 text <- lift (str_of_Z target_temp) ;;
                 _post {[ "temperature" := PyStr text ]}) w =
                match int v with
                | inr z =>
                    match str_of_Z z with
                    | inr text => _post {[ "temperature" := PyStr text ]} w
                    | inl e => (inl e, w)
                    end
                | inl e => (inl e, w)
                end).
  { unfold bind, lift. destruct (int v) as [e|z]; [reflexivity|].
    unfold ret. destruct (str_of_Z z); reflexivity. }
  destruct v; [done|exact Hgo..].
Qed.
(** The integer part of a finite float, in integers: [int] rounds the
    fraction [float_num / float_den] toward zero. *)
Lemma int_of_float_truncates s m e :
  exists t,
    int_of_float (S754_finite s m e) = inr t /\
    Z.abs t * float_den e <= Z.abs (float_num s m e) < (Z.abs t + 1) * float_den e /\
    0 <= t * float_num s m e.
Proof.
  eexists. split; [reflexivity|].
  unfold float_num, float_den.
  assert (Hs : forall x, Z.abs (cond_Zopp s x) = Z.abs x)
    by (intros x; destruct s; simpl; lia).
  rewrite !Hs.
  destruct (Z_lt_le_dec e 0) as [He|He].
  - rewrite (Z.max_r e 0), (Z.max_l (- e) 0) by lia.
    rewrite Z.shiftl_div_pow2 by lia.
    change (2 ^ 0) with 1. rewrite Z.mul_1_r.
    assert (Hp : 0 < 2 ^ (- e)) by (apply Z.pow_pos_nonneg; lia).
    pose proof (Z.mul_div_le (Z.pos m) _ Hp) as Hle.
    pose proof (Z.mul_succ_div_gt (Z.pos m) _ Hp) as Hgt.
    assert (Hq : 0 <= Z.pos m / 2 ^ (- e)) by (apply Z.div_pos; lia).
    rewrite (Z.abs_eq (Z.pos m)), (Z.abs_eq (_ / _)) by lia.
    split; [lia|]. destruct s; simpl; nia.
  - rewrite (Z.max_l e 0), (Z.max_r (- e) 0) by lia.
    rewrite Z.shiftl_mul_pow2 by lia.
    change (2 ^ 0) with 1.
    assert (Hp : 0 < 2 ^ e) by (apply Z.pow_pos_nonneg; lia).
    split; [lia|]. destruct s; simpl; nia.
Qed.


(** A valid binary64 is below [2 ^ 1024] in magnitude. *)
Lemma digits2_pos_bound m : Z.pos m < 2 ^ Z.pos (digits2_pos m).
Proof.
  induction m as [m IH|m IH|]; cbn [digits2_pos]; [| |reflexivity];
    rewrite Pos2Z.inj_succ, Z.pow_succ_r by lia; lia.
Qed.

Lemma valid_binary_bound s m e :
  valid_binary prec emax (S754_finite s m e) = true ->
  Z.abs (float_num s m e) < 2 ^ 1024.
Proof.
  unfold valid_binary, bounded, canonical_mantissa, fexp, emin, prec, emax.
  intros [Hcan He]%andb_prop. apply Z.eqb_eq in Hcan. apply Z.leb_le in He.
  pose proof (digits2_pos_bound m) as Hm.
  assert (Hd : Z.pos (digits2_pos m) <= 53) by lia.
  assert (Hm53 : Z.pos m < 2 ^ 53).
  { eapply Z.lt_le_trans; [exact Hm|]. apply Z.pow_le_mono_r; lia. }
  unfold float_num.
  replace (Z.abs (cond_Zopp s (Z.pos m * 2 ^ Z.max e 0)))
    with (Z.pos m * 2 ^ Z.max e 0)
    by (assert (0 < 2 ^ Z.max e 0) by (apply Z.pow_pos_nonneg; lia);
        destruct s; simpl; lia).
  assert (Hpow : 2 ^ 53 * 2 ^ Z.max e 0 <= 2 ^ 1024).
  { rewrite <- Z.pow_add_r by lia. apply Z.pow_le_mono_r; lia. }
  assert (0 < 2 ^ Z.max e 0) by (apply Z.pow_pos_nonneg; lia).
  revert Hm53 Hpow. generalize (2 ^ 53) (2 ^ 1024) (2 ^ Z.max e 0) H. intros; nia.
Qed.

Lemma pow2_1024_below_limit : 2 ^ 1024 <= str_limit.
Proof. vm_compute. discriminate. Qed.

(** The integer part of a valid binary64 has fewer digits than the
    limit. *)
Lemma int_of_float_below_limit s m e t :
  valid_binary prec emax (S754_finite s m e) = true ->
  Z.abs t * float_den e <= Z.abs (float_num s m e) ->
  Z.abs t < str_limit.
Proof.
  intros Hvalid Ht.
  pose proof (valid_binary_bound s m e Hvalid) as Hb.
  pose proof pow2_1024_below_limit as Hlim.
  assert (Hden : 1 <= float_den e).
  { unfold float_den.
    assert (0 < 2 ^ Z.max (- e) 0) by (apply Z.pow_pos_nonneg; lia). lia. }
  revert Hb Hlim. generalize (2 ^ 1024). intros P ? ?.
  assert (Z.abs t <= Z.abs t * float_den e) by nia. lia.
Qed.

(** An integer of 4301 digits is converted by [int], but not written
    out: the string conversion raises and nothing is sent. *)
Lemma set_temperature_limit_counterexample :
  str_limit = 10 ^ 4300 /\
  int (PyInt str_limit) = inr str_limit /\
  set_temperature {[ "temperature" := PyInt str_limit ]} Demo.w0
  = (inl ValueError, Demo.w0).
Proof.
  split; [reflexivity|]. split; [reflexivity|].
  rewrite (set_temperature_value _ (PyInt str_limit))
    by (done || apply lookup_singleton_eq).
  cbn [int]. rewrite str_of_Z_large; [done|].
  pose proof str_limit_pos. lia.
Qed.

(** C8, amended: without a temperature among the keyword arguments (or
    with [None]) [set_temperature] returns at once, leaving the entity
    and the list of posted calls as they were. With a value that [int]
    converts to an integer of at most 4300 digits it posts exactly
    [{temperature: s}], where [s] is that integer written out in base
    ten; for an integer of more digits the string conversion raises
    [ValueError] and nothing is posted. *)
Theorem set_temperature_encoding (kwargs : gmap string pyval) (w : world) :
  (default PyNone (kwargs !! ATTR_TEMPERATURE) = PyNone ->
   set_temperature kwargs w = (inr tt, w)) /\
  (forall v z,
     kwargs !! ATTR_TEMPERATURE = Some v -> v <> PyNone -> int v = inr z ->
     Z.abs z < str_limit ->
     exists s,
       decimal_of z s /\
       posted (set_temperature kwargs w).2 =
         (posted w ++ [request (self w) {[ "temperature" := PyStr s ]}])%list) /\
  (forall v z,
     kwargs !! ATTR_TEMPERATURE = Some v -> v <> PyNone -> int v = inr z ->
     str_limit <= Z.abs z ->
     set_temperature kwargs w = (inl ValueError, w)).
Proof.
  split; [apply set_temperature_none|]. split.
  - intros v z Hk Hv Hz Hlim.
    destruct (str_of_Z_spec z) as [(_ & s & Hs & Hdec)|[Hbig _]]; [|lia].
    exists s. split; [exact Hdec|].
    rewrite (set_temperature_value _ _ _ Hk Hv), Hz, Hs, _post_eq. reflexivity.
  - intros v z Hk Hv Hz Hlim.
    by rewrite (set_temperature_value _ _ _ Hk Hv), Hz, (str_of_Z_large _ Hlim).
Qed.

Lemma set_temperature_encoding_witness :
  set_temperature ∅ Demo.w0 = (inr tt, Demo.w0) /\
  set_temperature {[ "temperature" := PyNone ]} Demo.w0 = (inr tt, Demo.w0) /\
  posted (set_temperature {[ "temperature" := PyInt 24 ]} Demo.w0).2 =
    [request Demo.entity {[ "temperature" := PyStr "24" ]}] /\
  decimal_of 24 "24" /\
  posted (set_temperature {[ "temperature" := PyInt 7 ]} Demo.w0).2 =
    [request Demo.entity {[ "temperature" := PyStr "7" ]}].
Proof.
  assert (Hone : forall z s0,
    Z.abs z < str_limit ->
    posted (set_temperature {[ "temperature" := PyInt z ]} Demo.w0).2
      = [request Demo.entity {[ "temperature" := PyStr s0 ]}] ->
    posted (set_temperature {[ "temperature" := PyInt z ]} Demo.w0).2
      = [request Demo.entity {[ "temperature" := PyStr s0 ]}] /\ decimal_of z s0).
  { intros z s0 Hlim Hrun.
    destruct (proj1 (proj2 (set_temperature_encoding
                              {[ "temperature" := PyInt z ]} Demo.w0))
                (PyInt z) z) as (s & Hdec & Hposted);
      [apply lookup_singleton_eq | discriminate | reflexivity | exact Hlim |].
    rewrite Hrun in Hposted.
    pose proof (f_equal (fun l => match l with
                                  | [c] => call_data c !! "temperature"
                                  | _ => None
                                  end) Hposted) as Hs.
    cbn in Hs. rewrite !lookup_singleton_eq in Hs. injection Hs as ->.
    by split. }
  split; [|split].
  - apply (set_temperature_encoding ∅ Demo.w0). reflexivity.
  - apply (set_temperature_encoding {[ "temperature" := PyNone ]} Demo.w0).
    reflexivity.
  - destruct (Hone 24 "24") as [H24 Hd24]; [vm_compute; reflexivity | reflexivity |].
    destruct (Hone 7 "7") as [H7 _]; [vm_compute; reflexivity | reflexivity |].
    done.
Defined.

(** An integer is a numeric input too, and one of 4301 digits is not
    sent at all: the call raises [ValueError] with nothing posted. *)
Lemma set_temperature_truncates_counterexample :
  int (PyInt (- str_limit)) = inr (- str_limit) /\
  (set_temperature {[ "temperature" := PyInt (- str_limit) ]} Demo.w0).1
  = inl ValueError /\
  posted (set_temperature {[ "temperature" := PyInt (- str_limit) ]} Demo.w0).2 = [].
Proof.
  split; [reflexivity|].
  rewrite (set_temperature_value _ (PyInt (- str_limit)))
    by (done || apply lookup_singleton_eq).
  cbn [int]. rewrite str_of_Z_large; [done|].
  pose proof str_limit_pos. lia.
Qed.

(** C10, amended: for a finite float (a valid binary64) the temperature
    sent is its integer part, rounded toward zero and written out in
    base ten, so 24.7 is sent as "24"; a float zero is sent as "0"; an
    integer of at most 4300 digits is sent as it is, and one of more
    digits raises [ValueError] in the string conversion with nothing
    posted; and when [int] rejects the value, [set_temperature] raises
    that error with nothing posted. *)
Theorem set_temperature_truncates (kwargs : gmap string pyval) (w : world) :
  (forall s m e,
     kwargs !! ATTR_TEMPERATURE = Some (PyFloat (S754_finite s m e)) ->
     valid_binary prec emax (S754_finite s m e) = true ->
     exists t text,
       posted (set_temperature kwargs w).2 =
         (posted w ++ [request (self w) {[ "temperature" := PyStr text ]}])%list /\
       decimal_of t text /\
       Z.abs t * float_den e <= Z.abs (float_num s m e) < (Z.abs t + 1) * float_den e /\
       0 <= t * float_num s m e) /\
  (forall s,
     kwargs !! ATTR_TEMPERATURE = Some (PyFloat (S754_zero s)) ->
     posted (set_temperature kwargs w).2 =
       (posted w ++ [request (self w) {[ "temperature" := PyStr "0" ]}])%list) /\
  (forall z,
     kwargs !! ATTR_TEMPERATURE = Some (PyInt z) ->
     Z.abs z < str_limit ->
     exists text,
       decimal_of z text /\
       posted (set_temperature kwargs w).2 =
         (posted w ++ [request (self w) {[ "temperature" := PyStr text ]}])%list) /\
  (forall z,
     kwargs !! ATTR_TEMPERATURE = Some (PyInt z) ->
     str_limit <= Z.abs z ->
     set_temperature kwargs w = (inl ValueError, w)) /\
  (forall v err,
     kwargs !! ATTR_TEMPERATURE = Some v -> v <> PyNone -> int v = inl err ->
     set_temperature kwargs w = (inl err, w)).
Proof.
  split; [|split; [|split; [|split]]].
  - intros s m e Hk Hvalid.
    destruct (int_of_float_truncates s m e) as (t & Ht & Hb & Hsgn).
    pose proof (int_of_float_below_limit s m e t Hvalid (proj1 Hb)) as Hlim.
    destruct (str_of_Z_spec t) as [(_ & text & Htext & Hdec)|[Hbig _]]; [|lia].
    exists t, text. split; [|done].
    rewrite (set_temperature_value _ _ _ Hk) by discriminate.
    unfold int. rewrite Ht, Htext, _post_eq. reflexivity.
  - intros s Hk.
    rewrite (set_temperature_value _ _ _ Hk) by discriminate.
    assert (H0 : str_of_Z 0 = inr "0") by reflexivity.
    cbn [int int_of_float]. rewrite H0, _post_eq. reflexivity.
  - intros z Hk Hlim.
    destruct (str_of_Z_spec z) as [(_ & text & Htext & Hdec)|[Hbig _]]; [|lia].
    exists text. split; [exact Hdec|].
    rewrite (set_temperature_value _ _ _ Hk) by discriminate.
    cbn [int]. rewrite Htext, _post_eq. reflexivity.
  - intros z Hk Hlim.
    rewrite (set_temperature_value _ _ _ Hk) by discriminate.
    cbn [int]. by rewrite (str_of_Z_large _ Hlim).
  - intros v err Hk Hv He.
    by rewrite (set_temperature_value _ _ _ Hk Hv), He.
Qed.

Lemma set_temperature_truncates_witness :
  posted (set_temperature {[ "temperature" := PyFloat Demo.f24_7 ]} Demo.w0).2 =
    [request Demo.entity {[ "temperature" := PyStr "24" ]}] /\
  decimal_of 24 "24" /\
  24 * float_den (-48) <= float_num false 6952431924753203 (-48)
    < 25 * float_den (-48) /\
  set_temperature {[ "temperature" := PyStr "abc" ]} Demo.w0
  = (inl ValueError, Demo.w0).
Proof.
  destruct (proj1 (set_temperature_truncates
                     {[ "temperature" := PyFloat Demo.f24_7 ]} Demo.w0)
              false 6952431924753203%positive (-48))
    as (t & text & Hposted & Hdec & Hb & _); [reflexivity | reflexivity |].
  assert (Hrun :
    posted (set_temperature {[ "temperature" := PyFloat Demo.f24_7 ]} Demo.w0).2 =
    [request Demo.entity {[ "temperature" := PyStr "24" ]}]) by reflexivity.
  rewrite Hrun in Hposted.
  pose proof (f_equal (fun l => match l with
                                | [c] => call_data c !! "temperature"
                                | _ => None
                                end) Hposted) as Hs.
  cbn in Hs. rewrite !lookup_singleton_eq in Hs. injection Hs as <-.
  assert (Ht : t = 24).
  { destruct t as [|p|p]; unfold decimal_of in Hdec.
    - discriminate Hdec.
    - destruct Hdec as (_ & Hval & _). vm_compute in Hval. congruence.
    - destruct Hdec as (s' & Hs' & _). discriminate Hs'. }
  subst t. split; [exact Hrun|]. split; [exact Hdec|]. split.
  - vm_compute. split; [discriminate | reflexivity].
  - apply (proj2 (proj2 (proj2 (proj2 (set_temperature_truncates
                                         {[ "temperature" := PyStr "abc" ]} Demo.w0))))
             (PyStr "abc") ValueError);
      [reflexivity | discriminate | reflexivity].
Defined.
(** 24.7 is sent as "24", not as "25"; -24.7 as "-24"; infinities and
    NaN are refused. *)
Example set_temperature_24_7 :
  posted (set_temperature {[ "temperature" := PyFloat Demo.f24_7 ]} Demo.w0).2 =
  [request Demo.entity {[ "temperature" := PyStr "24" ]}].
Proof. reflexivity. Qed.

Example float_24_7 : float (PyStr "24.7") = inr Demo.f24_7.
Proof. reflexivity. Qed.

Example set_temperature_negative :
  posted (set_temperature
            {[ "temperature" := PyFloat (S754_finite true 6952431924753203 (-48)) ]}
            Demo.w0).2 =
  [request Demo.entity {[ "temperature" := PyStr "-24" ]}].
Proof. reflexivity. Qed.

Example set_temperature_not_finite :
  set_temperature {[ "temperature" := PyFloat (S754_infinity false) ]} Demo.w0
  = (inl OverflowError, Demo.w0) /\
  set_temperature {[ "temperature" := PyFloat S754_nan ]} Demo.w0
  = (inl ValueError, Demo.w0) /\
  set_temperature {[ "temperature" := PyStr "24.7" ]} Demo.w0
  = (inl ValueError, Demo.w0).
Proof. repeat split. Qed.


(** No command assigns to an attribute of the entity. *)
Lemma run_self c w : self (run c w).2 = self w.
Proof.
  destruct c as [kwargs|m|v|v]; simpl.
  - destruct (kwargs !! ATTR_TEMPERATURE) as [v|] eqn:Hk.
    + destruct (decide (v = PyNone)) as [->|Hv].
      * rewrite set_temperature_none; [done | by rewrite Hk].
      * rewrite (set_temperature_value _ _ _ Hk Hv).
        destruct (int v) as [e|z]; [done|].
        destruct (str_of_Z z); [done | by rewrite _post_eq].
    + rewrite set_temperature_none; [done | by rewrite Hk].
  - destruct (MODE_HA_TO_REMO !! m) as [raw|] eqn:Hm.
    + by rewrite (set_hvac_mode_eq _ _ _ Hm), _post_eq.
    + by rewrite (set_hvac_mode_unknown _ _ Hm).
  - unfold set_fan_mode. by rewrite _post_eq.
  - unfold async_set_swing_mode. by rewrite _post_eq.
Qed.

(** C9: after any of the four commands every attribute of the entity,
    [hvac_mode], [target_temperature], [fan_mode], [swing_mode] and the
    retained raw mode among them, has the value it had before, whether
    the command returned or raised; ingestion is what changes them. *)
Theorem commands_preserve_state :
  (forall (c : command) (w : world),
     self (run c w).2 = self w /\
     _hvac_mode (self (run c w).2) = _hvac_mode (self w) /\
     _target_temperature (self (run c w).2) = _target_temperature (self w) /\
     _fan_mode (self (run c w).2) = _fan_mode (self w) /\
     _swing_mode (self (run c w).2) = _swing_mode (self w) /\
     _remo_mode (self (run c w).2) = _remo_mode (self w)) /\
  _hvac_mode (self (_update Demo.cool_off Demo.w0).2) <> _hvac_mode Demo.entity.
Proof.
  split.
  - intros c w. rewrite run_self. done.
  - vm_compute. discriminate.
Qed.

(** ** Payload values *)

(** With the configuration [{cool: 26, heat: 20}], the mode command for
    [cool] sends the temperature as the integer 26. *)
Lemma payload_values_counterexample :
  posted (run (SetHvacMode "cool") Demo.w0).2 =
    [request Demo.entity
       (<["operation_mode" := PyStr "cool"]> {[ "temperature" := PyInt 26 ]})] /\
  ~ flat_strings (<["operation_mode" := PyStr "cool"]> {[ "temperature" := PyInt 26 ]}).
Proof.
  split; [reflexivity|].
  intros H. exact (H "temperature" (PyInt 26) eq_refl).
Qed.

(** The goal of a command that posted nothing. *)
Local Ltac nothing_new :=
  rewrite app_nil_r; split; [reflexivity|]; split; [simpl; lia | constructor].

(** C5, amended: each command posts at most one payload, a flat mapping
    with string keys. Every value that [set_temperature],
    [set_fan_mode] and [async_set_swing_mode] send is a string, and so
    are the [button] and the [operation_mode] of [set_hvac_mode]. The
    [temperature] that [set_hvac_mode] sends is the default of the
    target mode as it is configured, an integer, and null when the mode
    has none. *)
Theorem command_payload_values (c : command) (w : world) :
  exists new,
    posted (run c w).2 = (posted w ++ new)%list /\
    (length new <= 1)%nat /\
    Forall (fun call =>
      forall k v, call_data call !! k = Some v ->
        match c with
        | SetHvacMode m =>
            if String.eqb k "temperature"
            then (exists z, _default_temp (self w) !! m = Some z /\ v = PyInt z) \/
                 (_default_temp (self w) !! m = None /\ v = PyNone)
            else is_str v
        | _ => is_str v
        end) new.
Proof.
  assert (Hstr : forall key s k v,
    ({[ key := PyStr s ]} : payload) !! k = Some v -> is_str v)
    by (intros key s k v [_ <-]%lookup_singleton_Some; by exists s).
  destruct c as [kwargs|m|v|v]; simpl.
  - destruct (kwargs !! ATTR_TEMPERATURE) as [v|] eqn:Hk;
      [destruct (decide (v = PyNone)) as [->|Hv]|].
    + exists []. rewrite set_temperature_none by (by rewrite Hk). nothing_new.
    + rewrite (set_temperature_value _ _ _ Hk Hv).
      destruct (int v) as [e|z]; [exists []; nothing_new|].
      destruct (str_of_Z z) as [e|text]; [exists []; nothing_new|].
      eexists [_]. rewrite _post_eq. simpl.
      split; [reflexivity|]. split; [lia|].
      constructor; [|constructor]. simpl. intros k x Hx. eapply Hstr, Hx.
    + exists []. rewrite set_temperature_none by (by rewrite Hk). nothing_new.
  - destruct (MODE_HA_TO_REMO !! m) as [raw|] eqn:Hm.
    + eexists [_]. rewrite (set_hvac_mode_eq _ _ _ Hm), _post_eq. simpl.
      split; [reflexivity|]. split; [lia|].
      constructor; [|constructor]. simpl. intros k x.
      destruct (String.eqb raw "power-off").
      * intros [<- <-]%lookup_singleton_Some. simpl. by exists raw.
      * rewrite lookup_insert_Some, lookup_singleton_Some.
        intros [[<- <-]|[_ [<- <-]]]; simpl; [by exists raw|].
        destruct (_default_temp (self w) !! m) as [z|] eqn:Hz; simpl.
        -- left. by exists z.
        -- by right.
    + exists []. rewrite (set_hvac_mode_unknown _ _ Hm). nothing_new.
  - eexists [_]. unfold set_fan_mode. rewrite _post_eq. simpl.
    split; [reflexivity|]. split; [lia|].
    constructor; [|constructor]. simpl. intros k x Hx. eapply Hstr, Hx.
  - eexists [_]. unfold async_set_swing_mode. rewrite _post_eq. simpl.
    split; [reflexivity|]. split; [lia|].
    constructor; [|constructor]. simpl. intros k x Hx. eapply Hstr, Hx.
Qed.

Lemma command_payload_values_witness :
  length (posted (run (SetFanMode "auto") Demo.w0).2) = 1%nat /\
  Forall (fun call => forall k v, call_data call !! k = Some v -> is_str v)
    (posted (run (SetFanMode "auto") Demo.w0).2) /\
  Forall (fun call =>
            forall v, call_data call !! "temperature" = Some v -> v = PyInt 26)
    (posted (run (SetHvacMode "cool") Demo.w0).2) /\
  Forall (fun call =>
            forall v, call_data call !! "temperature" = Some v -> v = PyNone)
    (posted (run (SetHvacMode "dry") Demo.w0).2).
Proof.
  split; [reflexivity|]. split; [|split].
  - destruct (command_payload_values (SetFanMode "auto") Demo.w0)
      as (new & Hposted & _ & Hvalues).
    rewrite Hposted. exact Hvalues.
  - destruct (command_payload_values (SetHvacMode "cool") Demo.w0)
      as (new & Hposted & _ & Hvalues).
    rewrite Hposted. simpl.
    eapply Forall_impl; [exact Hvalues|].
    intros call Hcall v Hv. destruct (Hcall "temperature" v Hv) as [(z & Hz & ->)|[Hz _]].
    + vm_compute in Hz. by injection Hz as <-.
    + vm_compute in Hz. discriminate Hz.
  - destruct (command_payload_values (SetHvacMode "dry") Demo.w0)
      as (new & Hposted & _ & Hvalues).
    rewrite Hposted. simpl.
    eapply Forall_impl; [exact Hvalues|].
    intros call Hcall v Hv. destruct (Hcall "temperature" v Hv) as [(z & Hz & ->)|[_ ->]].
    + vm_compute in Hz. discriminate Hz.
    + reflexivity.
Defined.

(** ** Ingestion *)

(** [_update] in closed form: the three ways it can end. *)
Lemma _update_eq a w :
  _update a w =
  if String.eqb (s_button (a_settings a)) "power-off"
  then (inr tt, World (after_update (self w) (a_settings a) HVAC_MODE_OFF) (posted w))
  else
    match MODE_REMO_TO_HA !! s_mode (a_settings a) with
    | Some h => (inr tt, World (after_update (self w) (a_settings a) h) (posted w))
    | None => (inl (KeyError (PyStr (s_mode (a_settings a)))),
               World (after_reading (self w) (a_settings a)) (posted w))
    end.
Proof.
  unfold _update, after_update, after_reading, bind, try_except, lift, modify.
  simpl.
  destruct (temp_reading (a_settings a)) as [e|f]; simpl;
    change (getitem MODE_HA_TO_REMO HVAC_MODE_OFF) with (@inr exn _ "power-off");
    simpl;
    (destruct (String.eqb (s_button (a_settings a)) "power-off"); simpl;
     [reflexivity|];
     unfold getitem;
     destruct (MODE_REMO_TO_HA !! s_mode (a_settings a)); reflexivity).
Qed.

(** Case analysis on how [_update] ends: off, translated, or raised. *)
Ltac update_cases :=
  rewrite ?_update_eq;
  match goal with
  | |- context [String.eqb (s_button ?st) "power-off"] =>
      destruct (String.eqb_spec (s_button st) "power-off");
      [|destruct (MODE_REMO_TO_HA !! s_mode st) eqn:?]
  end; simpl.

Section Ingestion.

Variables (a : Appliance) (w : world).

Local Abbreviation st := (a_settings a).
Local Abbreviation outcome := ((_update a w).1).
Local Abbreviation after := (self (_update a w).2).

Lemma _update_ok :
  outcome = inr tt <->
  s_button st = "power-off" \/ is_Some (MODE_REMO_TO_HA !! s_mode st).
Proof.
  update_cases.
  - tauto.
  - split; eauto.
  - split; [discriminate|]. intros [?|[? ?]]; done.
Qed.

Lemma _update_remo_mode : _remo_mode after = Some (s_mode st).
Proof. update_cases; reflexivity. Qed.

Lemma _update_target_temperature :
  _target_temperature after =
  match temp_reading st with inr f => Some f | inl _ => None end.
Proof. update_cases; reflexivity. Qed.

(** What [_update] never assigns: the attributes set by the constructor
    and the list of posted calls. *)
Lemma _update_frame :
  _modes after = _modes (self w) /\
  _default_temp after = _default_temp (self w) /\
  _api after = _api (self w) /\
  _appliance_id after = _appliance_id (self w) /\
  _name after = _name (self w) /\
  posted (_update a w).2 = posted w.
Proof. update_cases; repeat split. Qed.

(** The entry that the capability lookups read after ingestion. *)
Lemma _update_current_mode_entry :
  current_mode_entry after = getitem (_modes (self w)) (s_mode st).
Proof.
  unfold current_mode_entry.
  rewrite _update_remo_mode, (proj1 _update_frame). reflexivity.
Qed.

(** C1, amended: [_update] never reads the capability table, so its
    outcome depends on the snapshot alone and a mode missing from that
    table fails only later, in [fan_modes], [swing_modes] and
    [_current_mode_temp_range]. The translation table is read during
    ingestion: [_update] returns exactly when the button is
    ["power-off"] or the mode is one of the six raw tokens, and raises
    [KeyError] on the mode otherwise. *)
Theorem ingest_errors :
  (outcome = inr tt <->
   s_button st = "power-off" \/ is_Some (MODE_REMO_TO_HA !! s_mode st)) /\
  (outcome = inr tt \/ outcome = inl (KeyError (PyStr (s_mode st)))) /\
  (forall w' : world, (_update a w').1 = outcome) /\
  _modes after = _modes (self w) /\
  (_modes (self w) !! s_mode st = None ->
   fan_modes after = inl (KeyError (PyStr (s_mode st))) /\
   swing_modes after = inl (KeyError (PyStr (s_mode st))) /\
   _current_mode_temp_range after = inl (KeyError (PyStr (s_mode st)))).
Proof.
  split; [apply _update_ok|].
  split; [|split; [|split]].
  - update_cases; auto.
  - intros w'. update_cases; reflexivity.
  - apply _update_frame.
  - intros Hm.
    unfold fan_modes, swing_modes, _current_mode_temp_range.
    rewrite _update_current_mode_entry. unfold getitem. by rewrite Hm.
Qed.

(** C3, amended: after [_update] the retained raw mode is the
    snapshot's mode, always. [hvac_mode] is [off] when the button is
    ["power-off"]; otherwise it is the translation of the mode when the
    mode is one of the six raw tokens (so it is [off] as well for the
    token ["power-off"]), and for any other mode [_update] raises
    [KeyError] and [hvac_mode] keeps its previous value. With button
    ["power-off"] and mode ["warm"] the result is [off] with raw mode
    ["warm"], and the capability lookups read the ["warm"] entry. *)
Theorem ingest_hvac_mode :
  _remo_mode after = Some (s_mode st) /\
  (s_button st = "power-off" ->
   outcome = inr tt /\ _hvac_mode after = Some HVAC_MODE_OFF) /\
  (s_button st <> "power-off" ->
   forall h, MODE_REMO_TO_HA !! s_mode st = Some h ->
   outcome = inr tt /\ _hvac_mode after = Some h) /\
  (s_button st <> "power-off" ->
   MODE_REMO_TO_HA !! s_mode st = None ->
   outcome = inl (KeyError (PyStr (s_mode st))) /\
   _hvac_mode after = _hvac_mode (self w)) /\
  (forall r, _modes (self w) !! s_mode st = Some r ->
   fan_modes after = inr (r_vol r) /\ swing_modes after = inr (r_dir r)).
Proof.
  split; [apply _update_remo_mode|].
  split; [|split; [|split]].
  - intros Hb. update_cases; done.
  - intros Hb h Hh. update_cases; [done| |congruence].
    split; [reflexivity | congruence].
  - intros Hb Hh. update_cases; [done|congruence|done].
  - intros r Hr. unfold fan_modes, swing_modes.
    rewrite _update_current_mode_entry. unfold getitem. by rewrite Hr.
Qed.

(** C7, amended: when the temperature of the snapshot is missing or is
    not a number, [_update] sets [target_temperature] to [None] and the
    failed reading is swallowed; when it is a number,
    [target_temperature] is its float value. Either holds whether or
    not [_update] returns: an error can only be the [KeyError] of the
    mode translation, raised after the temperature is assigned, when
    the button is not ["power-off"] and the mode is no raw token. *)
Theorem ingest_target_temperature :
  (forall e, temp_reading st = inl e -> _target_temperature after = None) /\
  (forall f, temp_reading st = inr f -> _target_temperature after = Some f) /\
  (outcome = inr tt \/
   (s_button st <> "power-off" /\
    MODE_REMO_TO_HA !! s_mode st = None /\
    outcome = inl (KeyError (PyStr (s_mode st))))) /\
  (s_button st = "power-off" \/ is_Some (MODE_REMO_TO_HA !! s_mode st) ->
   outcome = inr tt).
Proof.
  split; [|split; [|split]].
  - intros e He. by rewrite _update_target_temperature, He.
  - intros f Hf. by rewrite _update_target_temperature, Hf.
  - update_cases; auto.
  - apply _update_ok.
Qed.

End Ingestion.

(** The constructor hands on the configured defaults, and ingestion
    keeps them. *)
Lemma init_default_temp api a config o :
  __init__ api a config = inr o ->
  _default_temp o = default_temperatures config /\ _modes o = a_modes a.
Proof.
  unfold __init__.
  pose proof (_update_frame a (World (blank api a config) [])) as (Hm & Hd & _).
  destruct (_update a (World (blank api a config) [])) as [[e|[]] w'];
    [discriminate|].
  intros [= <-]. simpl in *. by rewrite Hm, Hd.
Qed.

Example init_living_room :
  __init__ Demo.api_ok (Demo.cool_with (Some (PyStr "25"))) Demo.config
  = inr Demo.entity.
Proof. reflexivity. Qed.

(** A snapshot whose mode is no raw token, with the device switched on:
    [_update] raises [KeyError] instead of returning, both on a live
    entity and in the constructor. *)
Lemma ingest_unknown_mode_counterexample :
  (_update Demo.turbo_on Demo.w0).1 = inl (KeyError (PyStr "turbo")) /\
  (_update Demo.turbo_on Demo.w0).1 <> inr tt /\
  __init__ Demo.api_ok Demo.turbo_on Demo.config = inl (KeyError (PyStr "turbo")).
Proof. repeat split; try reflexivity; discriminate. Qed.

Lemma ingest_errors_witness :
  (_update Demo.warm_off Demo.w0).1 = inr tt /\
  fan_modes (self (_update Demo.warm_off Demo.w0).2) = inl (KeyError (PyStr "warm")) /\
  swing_modes (self (_update Demo.warm_off Demo.w0).2) = inl (KeyError (PyStr "warm")) /\
  _current_mode_temp_range (self (_update Demo.warm_off Demo.w0).2)
  = inl (KeyError (PyStr "warm")).
Proof.
  pose proof (ingest_errors Demo.warm_off Demo.w0) as (Hok & _ & _ & _ & Hlater).
  split.
  - apply Hok. left. reflexivity.
  - apply Hlater. reflexivity.
Defined.

(** Two snapshots on which the stated rule for [hvac_mode] fails. With
    an unknown mode and the device on, [_update] raises before the
    assignment, so [hvac_mode] is still the previous [cool]: not [off],
    and no translation of the mode. With the raw token ["power-off"] in
    the mode field, [hvac_mode] is [off] although the button is not
    ["power-off"]. *)
Lemma ingest_hvac_mode_counterexample :
  (s_button (a_settings Demo.turbo_on) <> "power-off" /\
   MODE_REMO_TO_HA !! s_mode (a_settings Demo.turbo_on) = None /\
   (_update Demo.turbo_on Demo.w0).1 = inl (KeyError (PyStr "turbo")) /\
   _hvac_mode (self (_update Demo.turbo_on Demo.w0).2) = Some HVAC_MODE_COOL) /\
  (s_button (a_settings Demo.power_off_mode) <> "power-off" /\
   _hvac_mode (self (_update Demo.power_off_mode Demo.w0).2) = Some HVAC_MODE_OFF).
Proof. repeat split; try reflexivity; discriminate. Qed.

Lemma ingest_hvac_mode_witness :
  _remo_mode (self (_update Demo.bedroom_off Demo.bedroom0).2) = Some "warm" /\
  ((_update Demo.bedroom_off Demo.bedroom0).1 = inr tt /\
   _hvac_mode (self (_update Demo.bedroom_off Demo.bedroom0).2) = Some HVAC_MODE_OFF) /\
  (fan_modes (self (_update Demo.bedroom_off Demo.bedroom0).2) = inr ["auto"; "high"] /\
   swing_modes (self (_update Demo.bedroom_off Demo.bedroom0).2) = inr ["swing"]).
Proof.
  pose proof (ingest_hvac_mode Demo.bedroom_off Demo.bedroom0)
    as (Hraw & Hoff & _ & _ & Hcap).
  split; [exact Hraw|]. split.
  - apply Hoff. reflexivity.
  - apply (Hcap Demo.warm_range). reflexivity.
Defined.

(** A snapshot with an unreadable temperature on which [_update] raises
    all the same: the mode is no raw token and the device is on. *)
Lemma ingest_temperature_counterexample :
  temp_reading (a_settings Demo.turbo_abc) = inl ValueError /\
  _target_temperature (self (_update Demo.turbo_abc Demo.w0).2) = None /\
  (_update Demo.turbo_abc Demo.w0).1 = inl (KeyError (PyStr "turbo")) /\
  (_update Demo.turbo_abc Demo.w0).1 <> inr tt.
Proof. repeat split; try reflexivity; discriminate. Qed.

Lemma ingest_target_temperature_witness :
  _target_temperature (self (_update (Demo.cool_with (Some (PyStr ""))) Demo.w0).2)
    = None /\
  _target_temperature (self (_update (Demo.cool_with (Some (PyStr "abc"))) Demo.w0).2)
    = None /\
  _target_temperature (self (_update (Demo.cool_with None) Demo.w0).2) = None /\
  _target_temperature (self (_update (Demo.cool_with (Some (PyStr "25"))) Demo.w0).2)
    = Some (S754_finite false 7036874417766400 (-48)) /\
  (_update (Demo.cool_with (Some (PyStr "abc"))) Demo.w0).1 = inr tt.
Proof.
  split; [|split; [|split; [|split]]].
  - apply (proj1 (ingest_target_temperature
                    (Demo.cool_with (Some (PyStr ""))) Demo.w0) ValueError).
    reflexivity.
  - apply (proj1 (ingest_target_temperature
                    (Demo.cool_with (Some (PyStr "abc"))) Demo.w0) ValueError).
    reflexivity.
  - apply (proj1 (ingest_target_temperature (Demo.cool_with None) Demo.w0)
             (KeyError (PyStr "temp"))).
    reflexivity.
  - apply (proj1 (proj2 (ingest_target_temperature
                           (Demo.cool_with (Some (PyStr "25"))) Demo.w0))).
    reflexivity.
  - apply (proj2 (proj2 (proj2 (ingest_target_temperature
                                  (Demo.cool_with (Some (PyStr "abc"))) Demo.w0)))).
    right. by eexists.
Defined.

(** Empty strings become [None]; the rest is kept. *)
Example ingest_empty_strings :
  let st := {| s_mode := "cool"; s_temp := Some (PyStr "25");
               s_button := ""; s_vol := ""; s_dir := "3" |} in
  let o := self (_update (Demo.appliance st) Demo.w0).2 in
  _fan_mode o = None /\ _swing_mode o = Some "3".
Proof. split; reflexivity. Qed.

(** ** Capability lookups *)

Lemma list_map_int_Forall2 xs l :
  list_map_int xs = inr l <-> Forall2 (fun v z => int v = inr z) xs l.
Proof.
  revert l. induction xs as [|x xs IH]; intros l; simpl.
  - split.
    + intros [= <-]. constructor.
    + intros H. by inversion H.
  - destruct (int x) as [e|z] eqn:Hx.
    + split; [discriminate|]. intros H. inversion H; congruence.
    + destruct (list_map_int xs) as [e|zs] eqn:Hxs.
      * split; [discriminate|]. intros H. inversion H as [|? z' ? l' Hz Hl]; subst.
        apply IH in Hl. discriminate.
      * split.
        -- intros [= <-]. constructor; [done | by apply IH].
        -- intros H. inversion H as [|? z' ? l' Hz Hl]; subst.
           apply IH in Hl. congruence.
Qed.

Lemma list_map_int_total xs :
  Forall (fun v => exists z, int v = inr z) xs ->
  exists l, list_map_int xs = inr l /\ length l = length xs.
Proof.
  induction 1 as [|x xs [z Hz] _ (l & Hl & Hlen)]; simpl.
  - by exists [].
  - exists (z :: l). rewrite Hz, Hl. simpl. by rewrite Hlen.
Qed.

(** What [filter(None, ...)] drops from a range of strings and nulls. *)
Lemma truthy_string s : truthy (PyStr s) = false <-> s = "".
Proof.
  simpl. rewrite negb_false_iff. apply String.eqb_eq.
Qed.

Lemma list_min_spec z l :
  In (list_min z l) (z :: l) /\ Forall (fun x => list_min z l <= x) (z :: l).
Proof.
  unfold list_min. revert z. induction l as [|y l IH]; intros z; simpl.
  - split; [by left | repeat constructor; lia].
  - destruct (IH (Z.min z y)) as [Hin Hall].
    inversion Hall as [|? ? Hhd Htl]; subst. split.
    + destruct Hin as [Heq|Hin]; [|by right; right].
      rewrite <- Heq. destruct (Z.min_spec z y) as [[_ ->]|[_ ->]]; auto.
    + constructor; [lia|]. constructor; [lia | done].
Qed.

Lemma list_max_spec z l :
  In (list_max z l) (z :: l) /\ Forall (fun x => x <= list_max z l) (z :: l).
Proof.
  unfold list_max. revert z. induction l as [|y l IH]; intros z; simpl.
  - split; [by left | repeat constructor; lia].
  - destruct (IH (Z.max z y)) as [Hin Hall].
    inversion Hall as [|? ? Hhd Htl]; subst. split.
    + destruct Hin as [Heq|Hin]; [|by right; right].
      rewrite <- Heq. destruct (Z.max_spec z y) as [[_ ->]|[_ ->]]; auto.
    + constructor; [lia|]. constructor; [lia | done].
Qed.

Lemma list_map_int_app_error pre x post e :
  Forall (fun v => exists z, int v = inr z) pre ->
  int x = inl e ->
  list_map_int (pre ++ x :: post) = inl e.
Proof.
  intros Hpre Hx. induction Hpre as [|v pre [z Hz] _ IH]; simpl.
  - by rewrite Hx.
  - by rewrite Hz, IH.
Qed.

(** [filter(None, ...)] keeps what is not falsy. *)
Lemma truthy_falsy v : truthy v = false <-> falsy v.
Proof.
  unfold falsy. destruct v as [|z|f|s]; simpl.
  - split; [by left | done].
  - rewrite negb_false_iff, Z.eqb_eq. split.
    + intros ->. by right; right; left.
    + intros [H|[H|[H|[b H]]]]; congruence.
  - destruct f; split; try discriminate.
    + intros _. right; right; right. by eexists.
    + done.
    + intros [H|[H|[H|[b H]]]]; discriminate.
    + intros [H|[H|[H|[b H]]]]; discriminate.
    + intros [H|[H|[H|[b H]]]]; discriminate.
  - rewrite negb_false_iff, String.eqb_eq. split.
    + intros ->. by right; left.
    + intros [H|[H|[H|[b H]]]]; congruence.
Qed.

Lemma drop_falsy_filter xs kept :
  drop_falsy xs kept <-> kept = List.filter truthy xs.
Proof.
  split.
  - induction 1 as [|x xs kept Hx _ IH|x xs kept Hx _ IH]; simpl.
    + reflexivity.
    + apply truthy_falsy in Hx. by rewrite Hx.
    + destruct (truthy x) eqn:Ht; [by rewrite IH|].
      apply truthy_falsy in Ht. contradiction.
  - intros ->. induction xs as [|x xs IH]; simpl; [constructor|].
    destruct (truthy x) eqn:Ht.
    + apply drop_keep; [|exact IH].
      intros Hx%truthy_falsy. congruence.
    + apply drop_skip; [by apply truthy_falsy | exact IH].
Qed.

(** A range listed from the top down comes back in that order; a zero
    is taken out with the blanks; a half degree is refused. *)
Lemma temp_range_counterexample :
  _current_mode_temp_range (Demo.entity_with Demo.descending_range) = inr [30; 18] /\
  ~ Sorted Z.le [30; 18] /\
  r_temp Site.around_zero = [PyInt (-1); PyInt 0; PyInt 1] /\
  _current_mode_temp_range (Demo.entity_with Site.around_zero) = inr [-1; 1] /\
  r_temp Site.half_degrees = [PyStr "18"; PyStr ""; PyStr "18.5"; PyStr "19"] /\
  _current_mode_temp_range (Demo.entity_with Site.half_degrees) = inl ValueError.
Proof.
  split; [reflexivity|]. split; [|by repeat split].
  intros H. inversion H as [|? ? _ Hhd]; subst.
  inversion Hhd; subst. lia.
Qed.

(** C2, amended: [_current_mode_temp_range] takes out of the temperature
    range of the current mode's entry its falsy elements, which are the
    null, the empty string and a zero, keeps the others in the order in
    which the entry lists them, and converts each by [int]. It returns
    the integers in that order, unsorted, exactly when every kept
    element converts; otherwise it raises the error of the first kept
    element that does not. [min_temp] and [max_temp] are the least and
    the greatest element in whatever order, and the platform's 7 and 35
    when nothing is left. The entry [["18", "", "30", None]] gives
    [[18, 30]]. *)
Theorem temp_range_derivation (o : NatureRemoAC) (r : ModeRange) :
  current_mode_entry o = inr r ->
  exists kept,
    drop_falsy (r_temp r) kept /\
    (forall kept', drop_falsy (r_temp r) kept' -> kept' = kept) /\
    (forall l,
       _current_mode_temp_range o = inr l <->
       Forall2 (fun v z => int v = inr z) kept l) /\
    (Forall (fun v => exists z, int v = inr z) kept ->
     exists l, _current_mode_temp_range o = inr l /\ length l = length kept) /\
    (forall good v bad e,
       kept = (good ++ v :: bad)%list ->
       Forall (fun x => exists z, int x = inr z) good ->
       int v = inl e ->
       _current_mode_temp_range o = inl e) /\
    (forall z l, _current_mode_temp_range o = inr (z :: l) ->
       exists lo hi,
         min_temp o = inr lo /\ max_temp o = inr hi /\
         In lo (z :: l) /\ In hi (z :: l) /\
         Forall (fun x => lo <= x <= hi) (z :: l)) /\
    (_current_mode_temp_range o = inr [] ->
     min_temp o = inr DEFAULT_MIN_TEMP /\ max_temp o = inr DEFAULT_MAX_TEMP).
Proof.
  intros Hr.
  assert (Heq : _current_mode_temp_range o =
                list_map_int (List.filter truthy (r_temp r)))
    by (unfold _current_mode_temp_range; by rewrite Hr).
  exists (List.filter truthy (r_temp r)).
  split; [by apply drop_falsy_filter|].
  split; [intros kept' H; by apply drop_falsy_filter|].
  split; [|split; [|split; [|split]]].
  - intros l. rewrite Heq. apply list_map_int_Forall2.
  - intros Hall. rewrite Heq. by apply list_map_int_total.
  - intros good v bad e Hkept Hgood Hv. rewrite Heq, Hkept.
    by apply list_map_int_app_error.
  - intros z l Hl. unfold min_temp, max_temp. rewrite Hl.
    exists (list_min z l), (list_max z l).
    destruct (list_min_spec z l) as [Hmin Hlo].
    destruct (list_max_spec z l) as [Hmax Hhi].
    repeat split; try done.
    rewrite Forall_forall in *. intros x Hx.
    split; [by apply Hlo | by apply Hhi].
  - intros Hl. unfold min_temp, max_temp. by rewrite Hl.
Qed.

Lemma temp_range_derivation_witness :
  drop_falsy (r_temp Demo.blanks_range) [PyStr "18"; PyStr "30"] /\
  _current_mode_temp_range (Demo.entity_with Demo.blanks_range) = inr [18; 30] /\
  min_temp (Demo.entity_with Demo.blanks_range) = inr 18 /\
  max_temp (Demo.entity_with Demo.blanks_range) = inr 30 /\
  drop_falsy (r_temp Site.around_zero) [PyInt (-1); PyInt 1] /\
  _current_mode_temp_range (Demo.entity_with Site.around_zero) = inr [-1; 1] /\
  drop_falsy (r_temp Site.half_degrees) [PyStr "18"; PyStr "18.5"; PyStr "19"] /\
  _current_mode_temp_range (Demo.entity_with Site.half_degrees) = inl ValueError.
Proof.
  assert (Hkeep : forall v, truthy v = true -> ~ falsy v)
    by (intros v Hv Hf%truthy_falsy; congruence).
  assert (Hblanks : drop_falsy (r_temp Demo.blanks_range) [PyStr "18"; PyStr "30"]).
  { simpl. apply drop_keep; [by apply Hkeep|].
    apply drop_skip; [by right; left|].
    apply drop_keep; [by apply Hkeep|].
    apply drop_skip; [by left | constructor]. }
  assert (Hzero : drop_falsy (r_temp Site.around_zero) [PyInt (-1); PyInt 1]).
  { simpl. apply drop_keep; [by apply Hkeep|].
    apply drop_skip; [by right; right; left|].
    apply drop_keep; [by apply Hkeep | constructor]. }
  assert (Hhalf : drop_falsy (r_temp Site.half_degrees)
                    [PyStr "18"; PyStr "18.5"; PyStr "19"]).
  { simpl. apply drop_keep; [by apply Hkeep|].
    apply drop_skip; [by right; left|].
    apply drop_keep; [by apply Hkeep|].
    apply drop_keep; [by apply Hkeep | constructor]. }
  destruct (temp_range_derivation
              (Demo.entity_with Demo.blanks_range) Demo.blanks_range eq_refl)
    as (kept & _ & Huniq & Hrange & _ & _ & Hbounds & _).
  rewrite <- (Huniq _ Hblanks) in Hrange.
  assert (Hl : _current_mode_temp_range (Demo.entity_with Demo.blanks_range)
               = inr [18; 30]).
  { apply Hrange. constructor; [reflexivity|]. constructor; [reflexivity|].
    constructor. }
  destruct (Hbounds 18 [30] Hl) as (lo & hi & Hlo & Hhi & _).
  vm_compute in Hlo, Hhi. injection Hlo as <-. injection Hhi as <-.
  split; [exact Hblanks|]. split; [exact Hl|].
  split; [reflexivity|]. split; [reflexivity|].
  split; [exact Hzero|]. split.
  - destruct (temp_range_derivation
                (Demo.entity_with Site.around_zero) Site.around_zero eq_refl)
      as (kept0 & _ & Huniq0 & Hrange0 & _).
    rewrite <- (Huniq0 _ Hzero) in Hrange0.
    apply Hrange0. constructor; [reflexivity|]. constructor; [reflexivity|].
    constructor.
  - split; [exact Hhalf|].
    destruct (temp_range_derivation
                (Demo.entity_with Site.half_degrees) Site.half_degrees eq_refl)
      as (kept1 & _ & Huniq1 & _ & _ & Herr & _).
    apply (Herr [PyStr "18"] (PyStr "18.5") [PyStr "19"] ValueError).
    + symmetry. exact (Huniq1 _ Hhalf).
    + constructor; [by exists 18 | constructor].
    + reflexivity.
Defined.

(** An all-empty range yields the platform's default bounds. *)
Example empty_range_bounds :
  _current_mode_temp_range (Demo.entity_with Demo.empty_range) = inr [] /\
  min_temp (Demo.entity_with Demo.empty_range) = inr 7 /\
  max_temp (Demo.entity_with Demo.empty_range) = inr 35.
Proof. repeat split; reflexivity. Qed.

(** ** A whole session

    Construction from a cooling appliance, the command that switches it
    off, and the ingestion of the snapshot that follows. *)
Example session :
  _hvac_mode Demo.entity = Some HVAC_MODE_COOL /\
  _target_temperature Demo.entity = Some (S754_finite false 7036874417766400 (-48)) /\
  _fan_mode Demo.entity = Some "auto" /\
  _swing_mode Demo.entity = Some "auto" /\
  min_temp Demo.entity = inr 18 /\
  max_temp Demo.entity = inr 30 /\
  posted (set_hvac_mode HVAC_MODE_OFF Demo.w0).2 =
    [request Demo.entity {[ "button" := PyStr "power-off" ]}] /\
  _hvac_mode (self (_update Demo.cool_off Demo.w0).2) = Some HVAC_MODE_OFF /\
  _remo_mode (self (_update Demo.cool_off Demo.w0).2) = Some "cool" /\
  fan_modes (self (_update Demo.cool_off Demo.w0).2) = inr ["auto"; "low"].
Proof. repeat split. Qed.

(** * Further properties *)

(** ** Ingestion, polling and construction *)

Lemma update_eq w :
  update w =
  match api_get_appliance_list (_api (self w)) (_appliance_id (self w)) with
  | inl e => (inl e, w)
  | inr a => _update a w
  end.
Proof.
  unfold update, bind, gets, lift. simpl.
  by destruct (api_get_appliance_list _ _).
Qed.

(** X1: [update] makes no request on the settings resource. When the fetch
    raises, the error propagates and the entity is as it was; when it
    returns, the appliance is ingested, and the capability table that
    came with it is not read: the entity keeps the table it was built
    with. *)
Theorem update_polls (w : world) :
  posted (update w).2 = posted w /\
  _modes (self (update w).2) = _modes (self w) /\
  (forall e,
     api_get_appliance_list (_api (self w)) (_appliance_id (self w)) = inl e ->
     update w = (inl e, w)) /\
  (forall a,
     api_get_appliance_list (_api (self w)) (_appliance_id (self w)) = inr a ->
     update w = _update a w).
Proof.
  rewrite update_eq.
  destruct (api_get_appliance_list _ _) as [e|a] eqn:Hfetch.
  - split; [done|]. split; [done|]. split.
    + by intros e' [= ->].
    + intros a [=].
  - pose proof (_update_frame a w) as (Hm & _ & _ & _ & _ & Hp).
    split; [done|]. split; [done|]. split.
    + intros e [=].
    + by intros a' [= ->].
Qed.

Lemma update_polls_witness :
  update (World Site.bedroom []) = _update Demo.bedroom_off (World Site.bedroom []) /\
  update Demo.w0 = (inl (ApiError "offline"), Demo.w0).
Proof.
  split.
  - apply (proj2 (proj2 (proj2 (update_polls (World Site.bedroom []))))).
    reflexivity.
  - apply (proj1 (proj2 (proj2 (update_polls Demo.w0)))). reflexivity.
Defined.

(** X2: Ingesting the same snapshot a second time changes nothing, whether
    [_update] returns or raises. *)
Theorem ingest_idempotent (a : Appliance) (w : world) :
  _update a (_update a w).2 = _update a w.
Proof.
  rewrite (_update_eq a w).
  destruct (String.eqb (s_button (a_settings a)) "power-off") eqn:Hb.
  - rewrite _update_eq, Hb. reflexivity.
  - destruct (MODE_REMO_TO_HA !! s_mode (a_settings a)) as [h|] eqn:Hh;
      rewrite _update_eq, Hb, Hh; reflexivity.
Qed.

(** X3: When [_update] returns, the entity it leaves depends on the snapshot
    and on what the constructor fixed, not on what was ingested before:
    the last snapshot wins. *)
Theorem ingest_last_wins (a b : Appliance) (w : world) :
  (_update b w).1 = inr tt ->
  _update b (_update a w).2 = _update b w.
Proof.
  intros Hok. rewrite (_update_eq b w) in Hok.
  rewrite (_update_eq b w), (_update_eq b (_update a w).2).
  destruct (String.eqb (s_button (a_settings b)) "power-off") eqn:Hb;
    [|destruct (MODE_REMO_TO_HA !! s_mode (a_settings b)) as [h|] eqn:Hh;
      [|discriminate]];
    rewrite (_update_eq a w);
    (destruct (String.eqb (s_button (a_settings a)) "power-off");
     [|destruct (MODE_REMO_TO_HA !! s_mode (a_settings a))]); reflexivity.
Qed.

Lemma ingest_last_wins_witness :
  _update Demo.cool_off (_update Demo.turbo_on Demo.w0).2
  = _update Demo.cool_off Demo.w0.
Proof.
  apply (ingest_last_wins Demo.turbo_on Demo.cool_off Demo.w0). reflexivity.
Defined.

(** A snapshot on which [_update] raises leaves a trace of what came
    before: here the [hvac_mode] of the earlier snapshot. *)
Example _update_raise_keeps_history :
  _hvac_mode (self (_update Demo.turbo_on (_update Demo.cool_off Demo.w0).2).2)
    = Some HVAC_MODE_OFF /\
  _hvac_mode (self (_update Demo.turbo_on Demo.w0).2) = Some HVAC_MODE_COOL.
Proof. split; reflexivity. Qed.

(** ** Sequences of calls *)

Lemma MODE_REMO_TO_HA_values r h :
  MODE_REMO_TO_HA !! r = Some h -> h ∈ hvac_modes.
Proof.
  intros H%MODE_REMO_TO_HA_Some.
  rewrite !elem_of_cons, elem_of_nil in H.
  unfold hvac_modes, HVAC_MODE_AUTO, HVAC_MODE_FAN_ONLY, HVAC_MODE_COOL,
    HVAC_MODE_DRY, HVAC_MODE_HEAT, HVAC_MODE_OFF.
  repeat (destruct H as [[= -> ->]|H]; [rewrite !elem_of_cons; tauto|]). done.
Qed.

Lemma or_None_nonempty x : or_None x <> Some "".
Proof. destruct x; simpl; [discriminate|]. unfold or_None. simpl. discriminate. Qed.

Lemma same_setup_refl o : same_setup o o.
Proof. by repeat split. Qed.

Lemma same_setup_trans o1 o2 o3 :
  same_setup o1 o2 -> same_setup o2 o3 -> same_setup o1 o3.
Proof.
  unfold same_setup. intros (?&?&?&?&?) (?&?&?&?&?).
  repeat split; congruence.
Qed.

Lemma _update_same_setup a w : same_setup (self w) (self (_update a w).2).
Proof.
  pose proof (_update_frame a w) as (?&?&?&?&?&_). by repeat split.
Qed.

Lemma _update_normalized a w :
  (_update a w).1 = inr tt \/ normalized (self w) ->
  normalized (self (_update a w).2).
Proof.
  unfold normalized. intros Hpre.
  rewrite _update_eq in *.
  destruct (String.eqb_spec (s_button (a_settings a)) "power-off") as [Hb|Hb];
    [|destruct (MODE_REMO_TO_HA !! s_mode (a_settings a)) as [h|] eqn:Hh];
    simpl in *.
  - repeat split; eauto using or_None_nonempty.
    exists HVAC_MODE_OFF. split; [done|].
    unfold hvac_modes. rewrite !elem_of_cons. tauto.
  - repeat split; eauto using or_None_nonempty, MODE_REMO_TO_HA_values.
  - destruct Hpre as [[=]|(Hm & _ & Hf & Hs)]. repeat split; eauto.
Qed.

Lemma perform_same_setup op w : same_setup (self w) (self (perform op w).2).
Proof.
  destruct op as [a| |c]; simpl.
  - apply _update_same_setup.
  - rewrite update_eq. destruct (api_get_appliance_list _ _).
    + apply same_setup_refl.
    + apply _update_same_setup.
  - rewrite run_self. apply same_setup_refl.
Qed.

Lemma perform_normalized op w :
  normalized (self w) -> normalized (self (perform op w).2).
Proof.
  intros Hn. destruct op as [a| |c]; simpl.
  - apply _update_normalized. by right.
  - rewrite update_eq. destruct (api_get_appliance_list _ _); [done|].
    apply _update_normalized. by right.
  - by rewrite run_self.
Qed.

Lemma init_eq api a config :
  __init__ api a config =
  match _update a (World (blank api a config) []) with
  | (inr _, w) => inr (self w)
  | (inl e, _) => inl e
  end.
Proof. reflexivity. Qed.

Lemma init_normalized api a config o :
  __init__ api a config = inr o -> normalized o /\ same_setup (blank api a config) o.
Proof.
  rewrite init_eq.
  pose proof (_update_normalized a (World (blank api a config) [])) as Hn.
  pose proof (_update_same_setup a (World (blank api a config) [])) as Hs.
  destruct (_update a (World (blank api a config) [])) as [[e|[]] w'];
    [discriminate|].
  intros [= <-]. split; [apply Hn; by left | exact Hs].
Qed.

(** X4: However an entity is used after its construction, its [hvac_mode]
    is one of the six normalized modes, it retains a raw mode, and its
    fan and swing settings are never the empty string; this holds after
    calls that raised as well. *)
Theorem entity_stays_normalized (api : Api) (a : Appliance) (config : Config)
  (o : NatureRemoAC) (ops : list operation) (log : list PostCall) :
  __init__ api a config = inr o ->
  normalized (self (perform_all ops (World o log))).
Proof.
  intros [Hn _]%init_normalized.
  change o with (self (World o log)) in Hn.
  generalize dependent (World o log). clear.
  induction ops as [|op ops IH]; intros w Hn; simpl; [done|].
  apply IH. by apply perform_normalized.
Qed.

Lemma entity_stays_normalized_witness :
  normalized
    (self (perform_all
             [Do (SetHvacMode "dry"); Ingest Demo.turbo_on; Poll;
              Do (SetFanMode ""); Ingest Demo.cool_off]
             Demo.w0)).
Proof.
  apply (entity_stays_normalized Demo.api_ok (Demo.cool_with (Some (PyStr "25")))
           Demo.config Demo.entity _ []).
  reflexivity.
Defined.

(** X5: Nothing that is called on an entity reassigns what the constructor
    set: the client, the default temperatures, the name, the id and the
    capability table. A poll does not refresh the table. *)
Theorem setup_is_final (api : Api) (a : Appliance) (config : Config)
  (o : NatureRemoAC) (ops : list operation) (log : list PostCall) :
  __init__ api a config = inr o ->
  _api (self (perform_all ops (World o log))) = api /\
  _default_temp (self (perform_all ops (World o log))) = default_temperatures config /\
  name (self (perform_all ops (World o log))) = "Nature Remo " +:+ a_nickname a /\
  unique_id (self (perform_all ops (World o log))) = a_id a /\
  _modes (self (perform_all ops (World o log))) = a_modes a.
Proof.
  intros [_ Hs]%init_normalized.
  assert (Hall : same_setup (blank api a config)
                   (self (perform_all ops (World o log)))).
  { change o with (self (World o log)) in Hs.
    generalize dependent (World o log).
    induction ops as [|op ops IH]; intros w Hs; simpl; [done|].
    apply IH. eapply same_setup_trans; [exact Hs | apply perform_same_setup]. }
  destruct Hall as (?&?&?&?&?). by repeat split.
Qed.

Lemma setup_is_final_witness :
  _modes (self (perform_all [Poll; Ingest Demo.cool_off]
                  (World Site.bedroom [])))
  = a_modes Demo.bedroom_off.
Proof.
  apply (setup_is_final Site.api_down Demo.bedroom_off Demo.config
           Site.bedroom [Poll; Ingest Demo.cool_off] []).
  reflexivity.
Defined.

(** ** Requests *)

(** A command appends its requests to the log, whatever the log holds. *)
Lemma run_posted c w : posted (run c w).2 = (posted w ++ emitted c (self w))%list.
Proof.
  unfold emitted. destruct c as [kwargs|m|v|v]; simpl.
  - destruct (kwargs !! ATTR_TEMPERATURE) as [v|] eqn:Hk;
      [destruct (decide (v = PyNone)) as [->|Hv]|].
    + rewrite !set_temperature_none by (by rewrite Hk). simpl. by rewrite app_nil_r.
    + rewrite !(set_temperature_value _ _ _ Hk Hv).
      destruct (int v) as [e|z]; simpl; [by rewrite app_nil_r|].
      destruct (str_of_Z z); simpl; [by rewrite app_nil_r | by rewrite !_post_eq].
    + rewrite !set_temperature_none by (by rewrite Hk). simpl. by rewrite app_nil_r.
  - destruct (MODE_HA_TO_REMO !! m) as [raw|] eqn:Hm.
    + by rewrite !(set_hvac_mode_eq _ _ _ Hm), !_post_eq.
    + rewrite !(set_hvac_mode_unknown _ _ Hm). simpl. by rewrite app_nil_r.
  - unfold set_fan_mode. by rewrite !_post_eq.
  - unfold async_set_swing_mode. by rewrite !_post_eq.
Qed.

(** What a command sends is decided by its argument, the entity's id and
    the configured defaults. *)
Lemma emitted_same_setup c o o' : same_setup o o' -> emitted c o' = emitted c o.
Proof.
  intros (_ & Hd & _ & Hid & _).
  assert (Hreq : forall data, request o' data = request o data)
    by (intros; unfold request; by rewrite Hid).
  unfold emitted. destruct c as [kwargs|m|v|v]; simpl.
  - destruct (kwargs !! ATTR_TEMPERATURE) as [v|] eqn:Hk;
      [destruct (decide (v = PyNone)) as [->|Hv]|].
    + by rewrite !set_temperature_none by (by rewrite Hk).
    + rewrite !(set_temperature_value _ _ _ Hk Hv).
      destruct (int v) as [e|z]; simpl; [done|].
      destruct (str_of_Z z); simpl; [done|].
      rewrite !_post_eq. simpl. by rewrite Hreq.
    + by rewrite !set_temperature_none by (by rewrite Hk).
  - destruct (MODE_HA_TO_REMO !! m) as [raw|] eqn:Hm.
    + rewrite !(set_hvac_mode_eq _ _ _ Hm), !_post_eq. simpl. by rewrite Hd, Hreq.
    + by rewrite !(set_hvac_mode_unknown _ _ Hm).
  - unfold set_fan_mode. rewrite !_post_eq. simpl. by rewrite Hreq.
  - unfold async_set_swing_mode. rewrite !_post_eq. simpl. by rewrite Hreq.
Qed.

Lemma emitted_shape c o :
  (length (emitted c o) <= 1)%nat /\
  Forall (fun call => call_path call = settings_path o) (emitted c o).
Proof.
  unfold emitted. destruct c as [kwargs|m|v|v]; simpl.
  - destruct (kwargs !! ATTR_TEMPERATURE) as [v|] eqn:Hk;
      [destruct (decide (v = PyNone)) as [->|Hv]|].
    + rewrite set_temperature_none by (by rewrite Hk). simpl. split; [lia|constructor].
    + rewrite (set_temperature_value _ _ _ Hk Hv).
      destruct (int v) as [e|z]; simpl; [split; [lia|constructor]|].
      destruct (str_of_Z z); simpl; [split; [lia|constructor]|].
      rewrite _post_eq. simpl. split; [lia|]. by repeat constructor.
    + rewrite set_temperature_none by (by rewrite Hk). simpl. split; [lia|constructor].
  - destruct (MODE_HA_TO_REMO !! m) as [raw|] eqn:Hm.
    + rewrite (set_hvac_mode_eq _ _ _ Hm), _post_eq. simpl.
      split; [lia|]. by repeat constructor.
    + rewrite (set_hvac_mode_unknown _ _ Hm). simpl. split; [lia|constructor].
  - unfold set_fan_mode. rewrite _post_eq. simpl. split; [lia|]. by repeat constructor.
  - unfold async_set_swing_mode. rewrite _post_eq. simpl.
    split; [lia|]. by repeat constructor.
Qed.

Lemma perform_posted op w :
  posted (perform op w).2 = (posted w ++ requests_of (self w) op)%list.
Proof.
  destruct op as [a| |c]; simpl.
  - rewrite app_nil_r. apply _update_frame.
  - rewrite app_nil_r, update_eq. destruct (api_get_appliance_list _ _); [done|].
    apply _update_frame.
  - apply run_posted.
Qed.

Lemma requests_of_same_setup o o' op :
  same_setup o o' -> requests_of o' op = requests_of o op.
Proof. destruct op; simpl; auto using emitted_same_setup. Qed.

(** X6: The requests of a sequence of calls are those of its commands, each
    as it would be sent on its own: what a command sends does not
    depend on the snapshots ingested or the commands sent before it,
    and ingestion and polling send nothing. *)
Theorem requests_of_a_session (ops : list operation) (w : world) :
  posted (perform_all ops w) =
  (posted w ++ concat (map (requests_of (self w)) ops))%list.
Proof.
  revert w. induction ops as [|op ops IH]; intros w; simpl.
  - by rewrite app_nil_r.
  - rewrite IH, perform_posted, <- app_assoc. do 3 f_equal.
    apply List.map_ext. intros op'.
    apply requests_of_same_setup, perform_same_setup.
Qed.

(** X7: Every request of an entity goes to the settings resource of its own
    id, a command makes at most one, and what was sent earlier stays in
    the log in front of it. *)
Theorem requests_target_the_entity (ops : list operation) (w : world) :
  exists new,
    posted (perform_all ops w) = (posted w ++ new)%list /\
    (length new <= length ops)%nat /\
    Forall (fun call => call_path call = settings_path (self w)) new.
Proof.
  revert w. induction ops as [|op ops IH]; intros w; simpl.
  - exists []. rewrite app_nil_r. split; [done|]. split; [simpl; lia | constructor].
  - destruct (IH (perform op w).2) as (new & Hnew & Hlen & Hpath).
    exists (requests_of (self w) op ++ new)%list.
    rewrite Hnew, perform_posted, <- app_assoc. split; [done|].
    assert (Hop : (length (requests_of (self w) op) <= 1)%nat /\
                  Forall (fun call => call_path call = settings_path (self w))
                    (requests_of (self w) op)).
    { destruct op; simpl; try (split; [lia | constructor]). apply emitted_shape. }
    destruct Hop as [Hlen1 Hpath1]. split.
    + rewrite length_app. lia.
    + apply Forall_app. split; [done|].
      pose proof (perform_same_setup op w) as (_ & _ & _ & Hid & _).
      unfold settings_path in *. by rewrite Hid in Hpath.
Qed.

Example requests_of_a_session_demo :
  map call_data
    (posted (perform_all
               [Do (SetHvacMode "cool"); Ingest Demo.cool_off; Poll;
                Do (SetTemperature {[ "temperature" := PyInt 22 ]});
                Do (SetHvacMode "heat_cool"); Do (SetSwingMode "1")]
               Demo.w0))
  = [ <["operation_mode" := PyStr "cool"]> {[ "temperature" := PyInt 26 ]};
      {[ "temperature" := PyStr "22" ]};
      {[ "air_direction" := PyStr "1" ]} ].
Proof. reflexivity. Qed.

(** ** Errors of commands *)

(** X8: A command raises in one of two ways. Either it raises before it
    sends anything, and then it is [set_hvac_mode] on a mode outside
    the six, raising [KeyError] on it, or [set_temperature] on a value
    that [int] refuses, raising the error of [int], or
    [set_temperature] on a value whose integer has more than 4300
    digits ([str_limit] is [10 ^ 4300]), which cannot be written out
    and raises [ValueError]; or it
    has sent its one request and the error is the client's, handed on
    unchanged. When it returns, the client accepted what was sent. *)
Theorem command_errors (c : command) (w : world) :
  (forall e, (run c w).1 = inl e ->
     (posted (run c w).2 = posted w /\
      ((exists m, c = SetHvacMode m /\ (m ∉ hvac_modes) /\ e = KeyError (PyStr m)) \/
       (exists kwargs v, c = SetTemperature kwargs /\
                         kwargs !! ATTR_TEMPERATURE = Some v /\ int v = inl e) \/
       (exists kwargs v z, c = SetTemperature kwargs /\
                           kwargs !! ATTR_TEMPERATURE = Some v /\
                           int v = inr z /\ str_limit <= Z.abs z /\
                           e = ValueError))) \/
     (exists call,
        posted (run c w).2 = (posted w ++ [call])%list /\
        api_post (_api (self w)) (call_path call) (call_data call) = inl e)) /\
  ((run c w).1 = inr tt ->
   forall call, call ∈ emitted c (self w) ->
     exists response,
       api_post (_api (self w)) (call_path call) (call_data call) = inr response).
Proof.
  assert (Hpost : forall data,
    (forall e, (_post data w).1 = inl e ->
       exists call,
         posted (_post data w).2 = (posted w ++ [call])%list /\
         api_post (_api (self w)) (call_path call) (call_data call) = inl e) /\
    ((_post data w).1 = inr tt ->
     forall call, call ∈ posted (_post data (World (self w) [])).2 ->
       exists response,
         api_post (_api (self w)) (call_path call) (call_data call) = inr response)).
  { intros data. rewrite !_post_eq. simpl.
    destruct (api_post _ _ _) as [e|resp] eqn:Hapi; split.
    - intros e' [= <-]. by eexists.
    - discriminate.
    - discriminate.
    - intros _ call ->%list_elem_of_singleton. by eexists. }
  unfold emitted. destruct c as [kwargs|m|v|v]; simpl.
  - destruct (kwargs !! ATTR_TEMPERATURE) as [v|] eqn:Hk;
      [destruct (decide (v = PyNone)) as [->|Hv]|].
    + rewrite !set_temperature_none by (by rewrite Hk). simpl.
      split; [discriminate|]. intros _ call []%elem_of_nil.
    + rewrite !(set_temperature_value _ _ _ Hk Hv).
      destruct (int v) as [e|z] eqn:Hint.
      * simpl. split; [|discriminate].
        intros e' [= <-]. left. split; [done|]. right. left. by exists kwargs, v.
      * destruct (str_of_Z_spec z) as [(_ & s & -> & _)|[Hz ->]].
        -- destruct (Hpost {[ "temperature" := PyStr s ]}) as [He Hr].
           split; [intros e H; right; by apply He | exact Hr].
        -- simpl. split; [|discriminate].
           intros e' [= <-]. left. split; [done|]. right. right.
           by exists kwargs, v, z.
    + rewrite !set_temperature_none by (by rewrite Hk). simpl.
      split; [discriminate|]. intros _ call []%elem_of_nil.
  - destruct (MODE_HA_TO_REMO !! m) as [raw|] eqn:Hm.
    + rewrite !(set_hvac_mode_eq _ _ _ Hm). simpl.
      match goal with |- context [_post ?d w] => destruct (Hpost d) as [He Hr] end.
      split; [intros e H; right; by apply He | exact Hr].
    + rewrite !(set_hvac_mode_unknown _ _ Hm). simpl.
      split; [|discriminate].
      intros e [= <-]. left. split; [done|]. left. exists m.
      split; [done|]. split; [|done].
      rewrite hvac_modes_keys, Hm. by intros [? ?].
  - unfold set_fan_mode.
    destruct (Hpost {[ "air_volume" := PyStr v ]}) as [He Hr].
    split; [intros e H; right; by apply He | exact Hr].
  - unfold async_set_swing_mode.
    destruct (Hpost {[ "air_direction" := PyStr v ]}) as [He Hr].
    split; [intros e H; right; by apply He | exact Hr].
Qed.

Lemma command_errors_witness :
  (posted (run (SetHvacMode "heat_cool") Demo.w0).2 = posted Demo.w0 /\
   ((exists m, SetHvacMode "heat_cool" = SetHvacMode m /\ (m ∉ hvac_modes) /\
               KeyError (PyStr "heat_cool") = KeyError (PyStr m)) \/
    (exists kwargs v, SetHvacMode "heat_cool" = SetTemperature kwargs /\
                      kwargs !! ATTR_TEMPERATURE = Some v /\
                      int v = inl (KeyError (PyStr "heat_cool"))) \/
    (exists kwargs v z, SetHvacMode "heat_cool" = SetTemperature kwargs /\
                        kwargs !! ATTR_TEMPERATURE = Some v /\
                        int v = inr z /\ str_limit <= Z.abs z /\
                        KeyError (PyStr "heat_cool") = ValueError))) \/
  (exists call,
     posted (run (SetHvacMode "heat_cool") Demo.w0).2 = (posted Demo.w0 ++ [call])%list /\
     api_post (_api (self Demo.w0)) (call_path call) (call_data call)
     = inl (KeyError (PyStr "heat_cool"))).
Proof.
  apply (proj1 (command_errors (SetHvacMode "heat_cool") Demo.w0)
           (KeyError (PyStr "heat_cool"))).
  reflexivity.
Defined.

(** A refused request is in the log, and the refusal is what the
    command raises. *)
Example refused_request :
  run (SetFanMode "auto") (World Site.bedroom [])
  = (inl (ApiError "503"),
     World Site.bedroom [request Site.bedroom {[ "air_volume" := PyStr "auto" ]}]).
Proof. reflexivity. Qed.

(** ** A command and the snapshot that follows it *)

(** X9: For each of the six modes [set_hvac_mode] sends one request, and a
    snapshot that shows this request applied is ingested as the mode
    that was asked for: a [button] sent must be the snapshot's button;
    an [operation_mode] sent must be the snapshot's mode, with the
    device on. *)
Theorem hvac_mode_echo (m : string) (o : NatureRemoAC) :
  m ∈ hvac_modes ->
  exists call,
    emitted (SetHvacMode m) o = [call] /\
    forall (a : Appliance) (w : world),
      (forall b, call_data call !! "button" = Some (PyStr b) ->
                 s_button (a_settings a) = b) ->
      (forall r, call_data call !! "operation_mode" = Some (PyStr r) ->
                 s_mode (a_settings a) = r /\
                 s_button (a_settings a) <> "power-off") ->
      (_update a w).1 = inr tt /\
      _hvac_mode (self (_update a w).2) = Some m.
Proof.
  intros Hm.
  unfold hvac_modes, HVAC_MODE_AUTO, HVAC_MODE_FAN_ONLY, HVAC_MODE_COOL,
    HVAC_MODE_DRY, HVAC_MODE_HEAT, HVAC_MODE_OFF in Hm.
  rewrite !elem_of_cons, elem_of_nil in Hm.
  assert (Hon : forall (a : Appliance) (w : world) raw,
    s_mode (a_settings a) = raw /\ s_button (a_settings a) <> "power-off" ->
    MODE_REMO_TO_HA !! raw = Some m ->
    (_update a w).1 = inr tt /\ _hvac_mode (self (_update a w).2) = Some m).
  { intros a w raw [Hmode Hb] Hraw. rewrite _update_eq, Hmode, Hraw.
    by destruct (String.eqb_spec (s_button (a_settings a)) "power-off"). }
  unfold emitted. simpl.
  destruct Hm as [->|[->|[->|[->|[->|[->|[]]]]]]];
    erewrite set_hvac_mode_eq by reflexivity; rewrite _post_eq; simpl;
    (eexists; split; [reflexivity|]; intros a w Hbutton Hmode; simpl in *).
  - apply (Hon a w "auto"); [by apply Hmode | reflexivity].
  - apply (Hon a w "blow"); [by apply Hmode | reflexivity].
  - apply (Hon a w "cool"); [by apply Hmode | reflexivity].
  - apply (Hon a w "dry"); [by apply Hmode | reflexivity].
  - apply (Hon a w "warm"); [by apply Hmode | reflexivity].
  - rewrite _update_eq, (Hbutton "power-off" eq_refl). by simpl.
Qed.

Lemma hvac_mode_echo_witness :
  exists call,
    emitted (SetHvacMode "heat") Demo.entity = [call] /\
    forall (a : Appliance) (w : world),
      (forall b, call_data call !! "button" = Some (PyStr b) ->
                 s_button (a_settings a) = b) ->
      (forall r, call_data call !! "operation_mode" = Some (PyStr r) ->
                 s_mode (a_settings a) = r /\
                 s_button (a_settings a) <> "power-off") ->
      (_update a w).1 = inr tt /\
      _hvac_mode (self (_update a w).2) = Some "heat".
Proof.
  apply (hvac_mode_echo "heat" Demo.entity).
  unfold hvac_modes. rewrite !elem_of_cons. vm_compute. tauto.
Defined.

(** Heating is asked for as ["warm"] and read back as [heat]. *)
Example heat_echo :
  map call_data (emitted (SetHvacMode "heat") Demo.entity)
  = [ <["operation_mode" := PyStr "warm"]> {[ "temperature" := PyInt 20 ]} ] /\
  _hvac_mode (self (_update (Demo.appliance (Demo.snapshot "warm" "" (Some (PyStr "20"))))
                            Demo.w0).2) = Some "heat".
Proof. split; reflexivity. Qed.

(** ** Temperature bounds *)

Lemma list_min_le_max z l : list_min z l <= list_max z l.
Proof.
  destruct (list_min_spec z l) as [Hin _].
  destruct (list_max_spec z l) as [_ Hall].
  rewrite List.Forall_forall in Hall. by apply Hall.
Qed.

(** X10: [min_temp] and [max_temp] stand or fall together, with the same
    error, and when they return the minimum is not above the maximum:
    both come from the one range, or both from the defaults 7 and 35. *)
Theorem min_temp_le_max_temp (o : NatureRemoAC) :
  (forall e, min_temp o = inl e <-> max_temp o = inl e) /\
  (forall lo hi, min_temp o = inr lo -> max_temp o = inr hi -> lo <= hi).
Proof.
  unfold min_temp, max_temp.
  destruct (_current_mode_temp_range o) as [e|[|z l]].
  - split; [done|]. discriminate.
  - split; [done|]. intros lo hi [= <-] [= <-]. done.
  - split; [done|]. intros lo hi [= <-] [= <-]. apply list_min_le_max.
Qed.

Lemma min_temp_le_max_temp_witness :
  min_temp (Demo.entity_with Demo.blanks_range) = inr 18 /\
  max_temp (Demo.entity_with Demo.blanks_range) = inr 30 /\
  18 <= 30.
Proof.
  split; [reflexivity|]. split; [reflexivity|].
  apply (proj2 (min_temp_le_max_temp (Demo.entity_with Demo.blanks_range)) 18 30);
    reflexivity.
Defined.

(** The range of an entry that lists its temperatures in another order
    holds the same integers in that order. *)
Lemma temp_range_Permutation xs ys l :
  Permutation xs ys ->
  list_map_int (List.filter truthy xs) = inr l ->
  exists l', list_map_int (List.filter truthy ys) = inr l' /\ Permutation l l'.
Proof.
  intros Hp. revert l.
  induction Hp as [|x xs ys Hp IH|x y xs|xs ys zs Hp1 IH1 Hp2 IH2]; intros l; simpl.
  - intros [= <-]. by exists [].
  - destruct (truthy x); simpl; [|apply IH].
    destruct (int x) as [e|z]; [discriminate|].
    destruct (list_map_int (List.filter truthy xs)) as [e|zs] eqn:Hxs; [discriminate|].
    intros [= <-]. destruct (IH zs eq_refl) as (l' & -> & Hl').
    exists (z :: l'). by split; [|constructor].
  - destruct (truthy x), (truthy y); simpl;
      repeat match goal with
             | |- context [int ?v] => destruct (int v); simpl; try discriminate
             | |- context [list_map_int ?v] =>
                 destruct (list_map_int v); simpl; try discriminate
             end;
      intros [= <-]; eexists; (split; [reflexivity|]);
      try reflexivity; constructor.
  - intros Hl. destruct (IH1 l Hl) as (l1 & Hl1 & Hperm1).
    destruct (IH2 l1 Hl1) as (l2 & Hl2 & Hperm2).
    exists l2. split; [done|]. by etrans.
Qed.

Lemma list_min_Permutation z l z' l' :
  Permutation (z :: l) (z' :: l') -> list_min z l = list_min z' l'.
Proof.
  intros Hp.
  destruct (list_min_spec z l) as [Hin Hall].
  destruct (list_min_spec z' l') as [Hin' Hall'].
  rewrite List.Forall_forall in Hall, Hall'.
  apply Z.le_antisymm.
  - apply Hall. eapply Permutation_in; [symmetry; exact Hp | exact Hin'].
  - apply Hall'. eapply Permutation_in; [exact Hp | exact Hin].
Qed.

Lemma list_max_Permutation z l z' l' :
  Permutation (z :: l) (z' :: l') -> list_max z l = list_max z' l'.
Proof.
  intros Hp.
  destruct (list_max_spec z l) as [Hin Hall].
  destruct (list_max_spec z' l') as [Hin' Hall'].
  rewrite List.Forall_forall in Hall, Hall'.
  apply Z.le_antisymm.
  - apply Hall'. eapply Permutation_in; [exact Hp | exact Hin].
  - apply Hall. eapply Permutation_in; [symmetry; exact Hp | exact Hin'].
Qed.

(** X11: The bounds do not depend on the order in which the entry lists its
    temperatures: two entities whose current entries hold the same
    temperatures in different orders have the same [min_temp] and the
    same [max_temp]. *)
Theorem bounds_ignore_order (o1 o2 : NatureRemoAC) (r1 r2 : ModeRange) (lo hi : Z) :
  current_mode_entry o1 = inr r1 ->
  current_mode_entry o2 = inr r2 ->
  Permutation (r_temp r1) (r_temp r2) ->
  min_temp o1 = inr lo -> max_temp o1 = inr hi ->
  min_temp o2 = inr lo /\ max_temp o2 = inr hi.
Proof.
  intros H1 H2 Hp. unfold min_temp, max_temp, _current_mode_temp_range.
  rewrite H1, H2.
  destruct (list_map_int (List.filter truthy (r_temp r1))) as [e|l] eqn:Hl;
    [discriminate|].
  destruct (temp_range_Permutation _ _ _ Hp Hl) as (l' & -> & Hperm).
  destruct l as [|z l], l' as [|z' l'].
  - done.
  - by apply Permutation_nil_cons in Hperm.
  - symmetry in Hperm. by apply Permutation_nil_cons in Hperm.
  - intros [= <-] [= <-].
    by rewrite (list_min_Permutation _ _ _ _ Hperm), (list_max_Permutation _ _ _ _ Hperm).
Qed.

Lemma bounds_ignore_order_witness :
  min_temp (Demo.entity_with Site.shuffled_range) = inr 18 /\
  max_temp (Demo.entity_with Site.shuffled_range) = inr 30.
Proof.
  apply (bounds_ignore_order
           (Demo.entity_with Demo.blanks_range)
           (Demo.entity_with Site.shuffled_range)
           Demo.blanks_range Site.shuffled_range 18 30);
    try reflexivity.
  simpl.
  apply (Permutation_cons_app [PyNone; PyStr "30"] [PyStr ""]). simpl.
  apply (Permutation_cons_app [PyNone; PyStr "30"] []). simpl.
  apply perm_swap.
Defined.

(** ** What the range filter drops, and what stops the conversion *)

(** X12: [filter(None, ...)] tests truth, not emptiness: in an entry that
    lists its temperatures as integers, every 0 is dropped with the
    blanks and the other temperatures are kept in order. *)
Theorem integer_range_loses_zero (o : NatureRemoAC) (r : ModeRange) (zs : list Z) :
  current_mode_entry o = inr r ->
  r_temp r = map PyInt zs ->
  _current_mode_temp_range o = inr (List.filter (fun z => negb (z =? 0)) zs).
Proof.
  intros Hr Ht. unfold _current_mode_temp_range. rewrite Hr, Ht. clear.
  induction zs as [|z zs IH]; simpl; [done|].
  destruct (z =? 0); simpl; [done|]. by rewrite IH.
Qed.

Lemma integer_range_loses_zero_witness :
  _current_mode_temp_range (Demo.entity_with Site.around_zero) = inr [-1; 1] /\
  min_temp (Demo.entity_with Site.around_zero) = inr (-1).
Proof.
  split; [|reflexivity].
  apply (integer_range_loses_zero (Demo.entity_with Site.around_zero)
           Site.around_zero [-1; 0; 1]); reflexivity.
Defined.

(** The same temperatures as strings: ["0"] is kept. *)
Example string_range_keeps_zero :
  _current_mode_temp_range
    (Demo.entity_with
       {| r_temp := [PyStr "-1"; PyStr "0"; PyStr "1"]; r_vol := []; r_dir := [] |})
  = inr [-1; 0; 1].
Proof. reflexivity. Qed.

(** X13: One element of the range that [int] refuses, a half degree such as
    ["18.5"] for one, and the whole lookup raises that element's error:
    the range, [min_temp] and [max_temp] alike. The first such element
    decides the error. *)
Theorem range_conversion_error (o : NatureRemoAC) (r : ModeRange)
  (pre post : list pyval) (x : pyval) (e : exn) :
  current_mode_entry o = inr r ->
  List.filter truthy (r_temp r) = (pre ++ x :: post)%list ->
  Forall (fun v => exists z, int v = inr z) pre ->
  int x = inl e ->
  _current_mode_temp_range o = inl e /\
  min_temp o = inl e /\
  max_temp o = inl e.
Proof.
  intros Hr Hf Hpre Hx.
  assert (He : _current_mode_temp_range o = inl e).
  { unfold _current_mode_temp_range. rewrite Hr, Hf.
    by apply list_map_int_app_error. }
  unfold min_temp, max_temp. by rewrite He.
Qed.

Lemma range_conversion_error_witness :
  _current_mode_temp_range (Demo.entity_with Site.half_degrees) = inl ValueError /\
  min_temp (Demo.entity_with Site.half_degrees) = inl ValueError /\
  max_temp (Demo.entity_with Site.half_degrees) = inl ValueError.
Proof.
  apply (range_conversion_error (Demo.entity_with Site.half_degrees)
           Site.half_degrees [PyStr "18"] [PyStr "19"] (PyStr "18.5") ValueError).
  - reflexivity.
  - reflexivity.
  - repeat constructor. by exists 18.
  - reflexivity.
Defined.

(** ** Setting up the platform *)

Lemma init_outcome api a config :
  (ingestible a /\
   exists o, __init__ api a config = inr o /\
             unique_id o = a_id a /\
             name o = "Nature Remo " +:+ a_nickname a /\
             normalized o) \/
  (~ ingestible a /\
   __init__ api a config = inl (KeyError (PyStr (s_mode (a_settings a))))).
Proof.
  destruct (__init__ api a config) as [e|o] eqn:Hinit.
  - right. rewrite init_eq in Hinit.
    pose proof (_update_ok a (World (blank api a config) [])) as Hok.
    rewrite _update_eq in Hinit, Hok. unfold ingestible.
    destruct (String.eqb (s_button (a_settings a)) "power-off"); [discriminate|].
    destruct (MODE_REMO_TO_HA !! s_mode (a_settings a)); [discriminate|].
    simpl in *. injection Hinit as <-. split; [|done].
    intros H. apply Hok in H. discriminate.
  - left. destruct (init_normalized _ _ _ _ Hinit) as [Hn (_ & _ & Hname & Hid & _)].
    split.
    + rewrite init_eq in Hinit.
      apply (_update_ok a (World (blank api a config) [])).
      by destruct (_update a (World (blank api a config) [])) as [[e|[]] w'].
    + simpl in Hname, Hid. exists o. unfold unique_id, name.
      split; [done|]. split; [done|]. split; done.
Qed.

Lemma build_entities_ok api config ds :
  Forall ingestible (air_conditioners ds) ->
  exists os,
    build_entities api config ds = inr os /\
    map unique_id os = map a_id (air_conditioners ds) /\
    map name os =
      map (fun a => "Nature Remo " +:+ a_nickname a) (air_conditioners ds) /\
    Forall normalized os.
Proof.
  unfold air_conditioners.
  induction ds as [|d ds IH]; simpl; [by exists []|].
  destruct (String.eqb (d_type d) "AC"); simpl; [|exact IH].
  intros Hall. inversion Hall as [|? ? Ha Hrest]; subst.
  destruct (IH Hrest) as (os & -> & Hids & Hnames & Hn).
  destruct (init_outcome api (d_appliance d) config)
    as [(_ & o & -> & Hid & Hname & Ho)|[Hno _]]; [|done].
  exists (o :: os). simpl. rewrite Hid, Hname, Hids, Hnames.
  repeat split; try done. by constructor.
Qed.

Lemma build_entities_error api config ds pre a post :
  air_conditioners ds = (pre ++ a :: post)%list ->
  Forall ingestible pre ->
  ~ ingestible a ->
  build_entities api config ds = inl (KeyError (PyStr (s_mode (a_settings a)))).
Proof.
  unfold air_conditioners. revert pre.
  induction ds as [|d ds IH]; intros pre; simpl.
  - by destruct pre.
  - destruct (String.eqb (d_type d) "AC"); simpl; [|apply IH].
    destruct pre as [|p pre]; simpl.
    + intros [= Ha Hrest] _ Hno. rewrite Ha.
      by destruct (init_outcome api a config) as [(Hyes & _)|[_ ->]].
    + intros [= Hp Hrest] Hpre Hno.
      inversion Hpre as [|? ? Hpi Hpre']; subst.
      destruct (init_outcome api (d_appliance d) config)
        as [(_ & o & -> & _)|[Hnop _]]; [|done].
      by rewrite (IH pre Hrest Hpre' Hno).
Qed.

(** X14: [setup_platform] does nothing when [discovery_info] is [None].
    With a dict, the empty one included, it adds one entity for each appliance of type ["AC"], in
    order and under the appliance's id and nickname, and looks at no
    other appliance; every entity it adds is normalized. It adds none
    at all if one of those appliances is on in a mode that is no raw
    token: the [KeyError] of the first such appliance ends the call. *)
Theorem setup_platform_outcome (data : HassData) (info : gmap string pyval) :
  setup_platform data None = inr None /\
  (Forall ingestible (air_conditioners (h_appliances data)) ->
   exists os,
     setup_platform data (Some info) = inr (Some os) /\
     map unique_id os = map a_id (air_conditioners (h_appliances data)) /\
     map name os =
       map (fun a => "Nature Remo " +:+ a_nickname a)
           (air_conditioners (h_appliances data)) /\
     Forall normalized os) /\
  (forall pre a post,
     air_conditioners (h_appliances data) = (pre ++ a :: post)%list ->
     Forall ingestible pre ->
     ~ ingestible a ->
     setup_platform data (Some info)
     = inl (KeyError (PyStr (s_mode (a_settings a))))).
Proof.
  split; [reflexivity|]. split.
  - intros Hall.
    destruct (build_entities_ok (h_api data) (h_config data) _ Hall)
      as (os & Hos & Hrest).
    exists os. unfold setup_platform. by rewrite Hos.
  - intros pre a post Hacs Hpre Hno. unfold setup_platform.
    by rewrite (build_entities_error _ _ _ _ _ _ Hacs Hpre Hno).
Qed.

Lemma ingestible_cool : ingestible (Demo.cool_with (Some (PyStr "25"))).
Proof. right. by eexists. Qed.

Lemma ingestible_bedroom : ingestible Demo.bedroom_off.
Proof. by left. Qed.

Lemma not_ingestible_turbo : ~ ingestible Demo.turbo_on.
Proof. intros [H|[h H]]; discriminate. Qed.

Lemma setup_platform_outcome_witness :
  setup_platform Site.home None = inr None /\
  (exists os,
     setup_platform Site.home (Some ∅) = inr (Some os) /\
     map unique_id os = ["ac-1"; "ac-2"]) /\
  setup_platform
    {| h_api := Demo.api_ok;
       h_appliances := [Site.tv; Site.living_ac; Site.turbo_ac; Site.bedroom_ac];
       h_config := Demo.config |}
    (Some ∅)
  = inl (KeyError (PyStr "turbo")).
Proof.
  split; [exact (proj1 (setup_platform_outcome Site.home ∅))|]. split.
  - destruct (proj1 (proj2 (setup_platform_outcome Site.home ∅)))
      as (os & Hos & Hids & _).
    + change (air_conditioners (h_appliances Site.home))
        with [Demo.cool_with (Some (PyStr "25")); Demo.bedroom_off].
      apply List.Forall_cons; [apply ingestible_cool|].
      apply List.Forall_cons; [apply ingestible_bedroom|].
      apply List.Forall_nil.
    + by exists os.
  - apply (proj2 (proj2 (setup_platform_outcome _ ∅))
             [Demo.cool_with (Some (PyStr "25"))] Demo.turbo_on [Demo.bedroom_off]).
    + reflexivity.
    + apply List.Forall_cons; [apply ingestible_cool | apply List.Forall_nil].
    + apply not_ingestible_turbo.
Defined.

(** ** The shape of a request *)

(** X15: The keys of a request tell the command: [temperature] alone for
    [set_temperature]; [button] alone, or [operation_mode] with
    [temperature], for [set_hvac_mode]; [air_volume] alone and
    [air_direction] alone for the other two. A [button] is never sent
    together with a mode or a temperature. *)
Theorem request_keys (c : command) (o : NatureRemoAC) (call : PostCall) :
  call ∈ emitted c o ->
  match c with
  | SetTemperature _ => dom (call_data call) = ({[ "temperature" ]} : gset string)
  | SetHvacMode m =>
      (m = HVAC_MODE_OFF /\
       dom (call_data call) = ({[ "button" ]} : gset string)) \/
      (m <> HVAC_MODE_OFF /\
       dom (call_data call) = ({[ "operation_mode"; "temperature" ]} : gset string))
  | SetFanMode _ => dom (call_data call) = ({[ "air_volume" ]} : gset string)
  | SetSwingMode _ => dom (call_data call) = ({[ "air_direction" ]} : gset string)
  end.
Proof.
  unfold emitted. destruct c as [kwargs|m|v|v]; simpl.
  - destruct (kwargs !! ATTR_TEMPERATURE) as [v|] eqn:Hk;
      [destruct (decide (v = PyNone)) as [->|Hv]|].
    + rewrite set_temperature_none by (by rewrite Hk). by intros []%elem_of_nil.
    + rewrite (set_temperature_value _ _ _ Hk Hv).
      destruct (int v) as [e|z]; simpl; [by intros []%elem_of_nil|].
      destruct (str_of_Z z); simpl; [by intros []%elem_of_nil|].
      rewrite _post_eq. simpl. intros ->%list_elem_of_singleton.
      simpl. by rewrite dom_singleton_L.
    + rewrite set_temperature_none by (by rewrite Hk). by intros []%elem_of_nil.
  - destruct (MODE_HA_TO_REMO !! m) as [raw|] eqn:Hm.
    + rewrite (set_hvac_mode_eq _ _ _ Hm), _post_eq. simpl.
      intros ->%list_elem_of_singleton. simpl.
      apply MODE_HA_TO_REMO_Some in Hm.
      rewrite !elem_of_cons, elem_of_nil in Hm.
      destruct Hm as [[= -> ->]|[[= -> ->]|[[= -> ->]|[[= -> ->]|[[= -> ->]|[[= -> ->]|[]]]]]]];
        simpl;
        first [ left; split; [reflexivity|]; by rewrite dom_singleton_L
              | right; split; [discriminate|];
                by rewrite dom_insert_L, dom_singleton_L ].
    + rewrite (set_hvac_mode_unknown _ _ Hm). by intros []%elem_of_nil.
  - unfold set_fan_mode. rewrite _post_eq. simpl.
    intros ->%list_elem_of_singleton. simpl. by rewrite dom_singleton_L.
  - unfold async_set_swing_mode. rewrite _post_eq. simpl.
    intros ->%list_elem_of_singleton. simpl. by rewrite dom_singleton_L.
Qed.

Lemma request_keys_witness :
  dom (<["operation_mode" := PyStr "dry"]> ({[ "temperature" := PyNone ]} : payload))
  = ({[ "operation_mode"; "temperature" ]} : gset string).
Proof.
  destruct (request_keys (SetHvacMode "dry") Demo.entity
              (request Demo.entity
                 (<["operation_mode" := PyStr "dry"]> {[ "temperature" := PyNone ]})))
    as [[Hoff _]|[_ Hdom]].
  - apply list_elem_of_singleton. reflexivity.
  - discriminate Hoff.
  - exact Hdom.
Defined.

(** ** The temperature string *)

(** X16: For a value (not [None]) that [int] converts to an integer [z]
    of at most 4300 digits, [set_temperature] sends [z] written out in
    base ten, and that string reads back, with [int], as [z]: sent
    again as the argument, it makes the same request. *)
Theorem temperature_string_round_trip (v : pyval) (z : Z) (o : NatureRemoAC) :
  v <> PyNone ->
  int v = inr z ->
  Z.abs z < str_limit ->
  exists s,
    decimal_of z s /\
    int (PyStr s) = inr z /\
    emitted (SetTemperature {[ ATTR_TEMPERATURE := v ]}) o =
      [request o {[ "temperature" := PyStr s ]}] /\
    emitted (SetTemperature {[ ATTR_TEMPERATURE := PyStr s ]}) o =
      emitted (SetTemperature {[ ATTR_TEMPERATURE := v ]}) o.
Proof.
  intros Hv Hz Hlim.
  destruct (str_of_Z_spec z) as [(_ & s & Hs & Hdec)|[Hbig _]]; [|lia].
  exists s. split; [exact Hdec|].
  assert (Hback : int (PyStr s) = inr z)
    by (simpl; by rewrite (int_of_string_decimal z s Hdec Hlim)).
  split; [exact Hback|].
  unfold emitted. simpl.
  rewrite (set_temperature_value _ v) by (done || apply lookup_singleton_eq).
  rewrite (set_temperature_value _ (PyStr s))
    by (done || apply lookup_singleton_eq).
  rewrite Hz, Hback, Hs, !_post_eq. done.
Qed.

Lemma temperature_string_round_trip_witness :
  decimal_of (-24) "-24" /\
  int (PyStr "-24") = inr (-24) /\
  emitted (SetTemperature
             {[ ATTR_TEMPERATURE := PyFloat (S754_finite true 6952431924753203 (-48)) ]})
          Demo.entity =
    [request Demo.entity {[ "temperature" := PyStr "-24" ]}] /\
  emitted (SetTemperature {[ ATTR_TEMPERATURE := PyStr "-24" ]}) Demo.entity =
    emitted (SetTemperature
               {[ ATTR_TEMPERATURE := PyFloat (S754_finite true 6952431924753203 (-48)) ]})
            Demo.entity.
Proof.
  destruct (temperature_string_round_trip
              (PyFloat (S754_finite true 6952431924753203 (-48))) (-24) Demo.entity)
    as (s & Hdec & Hback & Hsent & Hagain);
    [discriminate | reflexivity | vm_compute; reflexivity |].
  assert (Hrun :
    emitted (SetTemperature
               {[ ATTR_TEMPERATURE := PyFloat (S754_finite true 6952431924753203 (-48)) ]})
            Demo.entity =
    [request Demo.entity {[ "temperature" := PyStr "-24" ]}]) by reflexivity.
  pose proof Hsent as Heq. rewrite Hrun in Heq.
  pose proof (f_equal (fun l => match l with
                                | [c] => call_data c !! "temperature"
                                | _ => None
                                end) Heq) as Hs.
  cbn in Hs. rewrite !lookup_singleton_eq in Hs. injection Hs as <-.
  done.
Defined.

(** ** The modes on offer *)

(** X17: [hvac_modes] offers six different modes, and they are the modes
    that [set_hvac_mode] takes: for a mode of the list it sends one
    request, for any other it raises [KeyError] on it and sends
    nothing. *)
Theorem offered_modes_are_accepted (m : string) (w : world) :
  NoDup hvac_modes /\
  length hvac_modes = 6%nat /\
  (m ∈ hvac_modes <-> length (emitted (SetHvacMode m) (self w)) = 1%nat) /\
  ((m ∉ hvac_modes) <-> set_hvac_mode m w = (inl (KeyError (PyStr m)), w)).
Proof.
  split; [|split; [reflexivity|]].
  { unfold hvac_modes. repeat (apply NoDup_cons; split;
      [rewrite ?elem_of_cons, elem_of_nil; vm_compute;
       intros H; repeat (destruct H as [H|H]; [discriminate H|]); exact H|]).
    apply NoDup_nil. done. }
  rewrite hvac_modes_keys. unfold emitted. simpl.
  destruct (MODE_HA_TO_REMO !! m) as [raw|] eqn:Hm.
  - rewrite !(set_hvac_mode_eq _ _ _ Hm), !_post_eq. simpl. split.
    + split; [done | by eexists].
    + split; [intros H; destruct H; by eexists|].
      destruct (api_post _ _ _); [intros [= _ Hw] | intros [=]].
      apply (f_equal posted) in Hw. simpl in Hw.
      apply (f_equal length) in Hw. rewrite length_app in Hw. simpl in Hw. lia.
  - rewrite !(set_hvac_mode_unknown _ _ Hm). simpl. split.
    + split; [by intros [? ?] | discriminate].
    + split; [done | by intros _ [? ?]].
Qed.
